(** * MediConnect portal: registration, login, role gates and blog visibility

    A shallow embedding of [app.py].  The relational tables are lists of rows
    in insertion order, the upload folder is a finite map from path to file
    content, and every route is a function from the stored state, the
    session cookie and the request to a result (new state, new session,
    flashed messages, response). *)

From stdpp Require Import base option list strings gmap.
From Stdlib Require Import ZArith Ascii String Lia.

Local Open Scope Z_scope.
Local Open Scope string_scope.

(** ** Database models *)

(** [class User(db.Model, UserMixin)]. *)
Module User.
Record t := mk {
  id : Z;
  username : string;
  email : string;
  password : string;
  role : string;
  first_name : string;
  last_name : string;
  address_line1 : string;
  city : string;
  state : string;
  pincode : string;
  profile_picture : option string
}.
End User.

(** [class Category(db.Model)]. *)
Module Category.
Record t := mk { id : Z; name : string }.
End Category.

(** [class BlogPost(db.Model)].  [created_at] is left out: no route reads
    it. *)
Module BlogPost.
Record t := mk {
  id : Z;
  title : string;
  image : option string;
  content : string;
  summary : string;
  is_draft : bool;
  category_id : Z;
  doctor_id : Z
}.
End BlogPost.

#[global] Instance User_eq_dec : EqDecision User.t.
Proof. solve_decision. Defined.
#[global] Instance Category_eq_dec : EqDecision Category.t.
Proof. solve_decision. Defined.
#[global] Instance BlogPost_eq_dec : EqDecision BlogPost.t.
Proof. solve_decision. Defined.

(** The persistent state: the three tables and the files below
    [UPLOAD_FOLDER].  Directories are not tracked: both upload paths create
    the target directory when it is missing before they write. *)
Record Store := mkStore {
  users : list User.t;
  categories : list Category.t;
  posts : list BlogPost.t;
  files : gmap string string
}.

Definition empty_store : Store := mkStore [] [] [] ∅.

(** ** Queries *)

(** [User.query.filter_by(username=...).first()] *)
Definition user_by_username (st : Store) (name : string) : option User.t :=
  find (fun u => bool_decide (User.username u = name)) (users st).

(** [User.query.filter_by(email=...).first()] *)
Definition user_by_email (st : Store) (mail : string) : option User.t :=
  find (fun u => bool_decide (User.email u = mail)) (users st).

(** [User.query.get(int(user_id))] *)
Definition load_user (st : Store) (user_id : Z) : option User.t :=
  find (fun u => bool_decide (User.id u = user_id)) (users st).

(** [Category.query.filter_by(name=...).first()] *)
Definition category_by_name (st : Store) (n : string) : option Category.t :=
  find (fun c => bool_decide (Category.name c = n)) (categories st).

(** The key an auto-increment primary key column gives the next row: above
    every key in the table. *)
Definition next_id (ids : list Z) : Z := 1 + foldr Z.max 0 ids.

(** ** Form validation (WTForms) *)

(** What a failed validator reports.  The rendered text of the library's
    own messages is abstracted by a constructor per validator; [Message]
    carries the text of a [ValidationError] raised by the source itself. *)
Inductive ValidationError :=
| Required
| BadLength
| BadEmail
| NotEqualTo (other : string)
| NotAValidChoice
| FileNotAllowed
| Message (text : string).

#[global] Instance ValidationError_eq_dec : EqDecision ValidationError.
Proof. solve_decision. Defined.

(** A validator passes, records an error and lets the chain go on
    ([ValidationError]), or records an error and ends the chain
    ([StopValidation]). *)
Inductive Verdict :=
| Pass
| Invalid (e : ValidationError)
| Stop (e : ValidationError).

Fixpoint run_chain (vs : list Verdict) : list ValidationError :=
  match vs with
  | [] => []
  | Pass :: rest => run_chain rest
  | Invalid e :: rest => e :: run_chain rest
  | Stop e :: _ => [e]
  end.

(** [str.isspace] on one character of the ASCII range. *)
Definition is_space (c : ascii) : bool :=
  let n := nat_of_ascii c in
  ((9 <=? n) && (n <=? 13) || (28 <=? n) && (n <=? 32))%nat.

Fixpoint blank (s : string) : bool :=
  match s with
  | EmptyString => true
  | String c rest => is_space c && blank rest
  end.

(** [DataRequired()]: [field.data] is truthy and not only white space. *)
Definition DataRequired (data : string) : Verdict :=
  if blank data then Stop Required else Pass.

(** [Length(min=..., max=...)]; [None] is the validator's [-1]. *)
Definition Length (min : nat) (max : option nat) (data : string) : Verdict :=
  let n := String.length data in
  if ((min <=? n) && match max with None => true | Some m => n <=? m end)%nat
  then Pass else Invalid BadLength.

(** [EqualTo('password')] *)
Definition EqualTo (other_name other data : string) : Verdict :=
  if bool_decide (data = other) then Pass else Invalid (NotEqualTo other_name).

(** [SelectField.pre_validate]: the value is one of the choices. *)
Definition valid_choice {A} `{EqDecision A} (choices : list A) (data : A) : Verdict :=
  if bool_decide (data ∈ choices) then Pass else Invalid NotAValidChoice.

(** An uploaded file as the request carries it.  A request above
    [MAX_CONTENT_LENGTH] is refused before it reaches a view. *)
Record FileStorage := mkFile { filename : string; stream : string }.

#[global] Instance FileStorage_eq_dec : EqDecision FileStorage.
Proof. solve_decision. Defined.

(** [FileField.process_formdata]: an upload without a file name is no
    upload. *)
Definition file_data (raw : option FileStorage) : option FileStorage :=
  match raw with
  | Some f => if bool_decide (filename f = "") then None else Some f
  | None => None
  end.

Definition lower_ascii (c : ascii) : ascii :=
  let n := nat_of_ascii c in
  if ((65 <=? n) && (n <=? 90))%nat then ascii_of_nat (n + 32) else c.

Fixpoint lower (s : string) : string :=
  match s with
  | EmptyString => EmptyString
  | String c rest => String (lower_ascii c) (lower rest)
  end.

Definition endswith (s suffix : string) : bool :=
  let n := String.length s in
  let k := String.length suffix in
  ((k <=? n)%nat && String.eqb (substring (n - k) k s) suffix).

(** [FileAllowed([...])] *)
Definition FileAllowed (upload_set : list string) (data : option FileStorage) : Verdict :=
  match data with
  | None => Pass
  | Some f =>
      if existsb (fun x => endswith (lower (filename f)) ("." ++ x)) upload_set
      then Pass else Stop FileNotAllowed
  end.

(** [form.errors]: the fields that have errors, in declaration order. *)
Definition form_errors (fields : list (string * list ValidationError))
  : list (string * list ValidationError) :=
  filter (fun fe => fe.2 ≠ []) fields.

(** ** Forms *)

Definition role_choices : list string := ["doctor"; "patient"].

Module RegistrationForm.
Record t := mk {
  role : string;
  first_name : string;
  last_name : string;
  username : string;
  email : string;
  password : string;
  confirm_password : string;
  address_line1 : string;
  city : string;
  state : string;
  pincode : string;
  profile_picture : option FileStorage
}.
End RegistrationForm.

Module LoginForm.
Record t := mk { username : string; password : string; role : string }.
End LoginForm.

(** [category] is the submitted value after [coerce=int] ([None] when it
    is missing or not a number); [is_draft] is the raw checkbox value
    ([None] when the request has none). *)
Module BlogPostForm.
Record t := mk {
  title : string;
  image : option FileStorage;
  category : option Z;
  summary : string;
  content : string;
  is_draft : option string
}.
End BlogPostForm.

(** [BooleanField.process_formdata]: false when the value is missing or one
    of [false_values]. *)
Definition boolean_data (raw : option string) : bool :=
  match raw with
  | None => false
  | Some v => negb (bool_decide (v ∈ ["false"; ""]))
  end.

(** ** Requests and responses *)

Inductive Method := GET | POST.

Inductive Flashed :=
| Text (s : string)
| FieldError (field : string) (e : ValidationError).

#[global] Instance Flashed_eq_dec : EqDecision Flashed.
Proof. solve_decision. Defined.

(** What [render_template] is given besides the form. *)
Inductive Context :=
| NoContext
| Title (title : string)
| UserContext (user : User.t)
| Posts (posts : list BlogPost.t) (title : string)
| CategoryPosts (category_posts : list (Category.t * list BlogPost.t)) (title : string).

Inductive Response :=
| Render (template : string) (ctx : Context)
| Redirect (location : string) (next : option string)
| Abort (code : Z).

#[global] Instance Context_eq_dec : EqDecision Context.
Proof. solve_decision. Defined.
#[global] Instance Response_eq_dec : EqDecision Response.
Proof. solve_decision. Defined.

(** The session cookie holds the id of the logged-in user, if any. *)
Definition Session := option Z.

Record Result := mkResult {
  store : Store;
  session : Session;
  flashes : list (Flashed * string);
  response : Response
}.

(** What the environment decides during one request: the salt drawn for a
    new password hash, whether the file system accepts a write, whether
    the database accepts the commit, and the text of the exception if one
    of them does not. *)
Record Env := mkEnv {
  salt : string;
  save_ok : bool;
  commit_ok : bool;
  error_text : string
}.

(** [url_for], from the [@app.route] decorators. *)
Definition routes : list (string * string) :=
  [("home", "/"); ("register", "/register"); ("login", "/login");
   ("logout", "/logout"); ("doctors_dashboard", "/doctors_dashboard");
   ("patients_dashboard", "/patients_dashboard");
   ("create_blog", "/blog/create"); ("my_posts", "/blog/my_posts");
   ("blog_home", "/blog")].

Definition url_for (endpoint : string) : string :=
  match find (fun r => bool_decide (r.1 = endpoint)) routes with
  | Some r => r.2
  | None => ""
  end.

(** [posixpath.join] of two components. *)
Definition path_join (a b : string) : string :=
  if String.prefix "/" b then b
  else if bool_decide (a = "") || endswith a "/" then a ++ b
  else a ++ "/" ++ b.

(** ** The database session *)

(** Rows handed to [db.session.add] and not yet committed. *)
Inductive Row :=
| UserRow (u : User.t)
| CategoryRow (c : Category.t)
| PostRow (p : BlogPost.t).

(** A request works on the stored state, on its own database session, on
    the session cookie and on the messages flashed so far. *)
Record World := mkWorld {
  db : Store;
  pending : list Row;
  cookie : Session;
  flashed : list (Flashed * string)
}.

Definition with_user_id (i : Z) (u : User.t) : User.t :=
  User.mk i (User.username u) (User.email u) (User.password u) (User.role u)
    (User.first_name u) (User.last_name u) (User.address_line1 u)
    (User.city u) (User.state u) (User.pincode u) (User.profile_picture u).

Definition with_post_id (i : Z) (p : BlogPost.t) : BlogPost.t :=
  BlogPost.mk i (BlogPost.title p) (BlogPost.image p) (BlogPost.content p)
    (BlogPost.summary p) (BlogPost.is_draft p) (BlogPost.category_id p)
    (BlogPost.doctor_id p).

(** One INSERT.  The primary key is assigned here; the [unique=True]
    columns reject a second row with the same value ([None]).  Foreign keys
    are not checked by the model. *)
Definition insert_row (st : Store) (r : Row) : option Store :=
  match r with
  | UserRow u =>
      if bool_decide (is_Some (user_by_username st (User.username u)))
         || bool_decide (is_Some (user_by_email st (User.email u)))
      then None
      else Some (mkStore
                   (users st ++ [with_user_id (next_id (User.id <$> users st)) u])
                   (categories st) (posts st) (files st))
  | CategoryRow c =>
      if bool_decide (is_Some (category_by_name st (Category.name c)))
      then None
      else Some (mkStore (users st)
                   (categories st ++
                      [Category.mk (next_id (Category.id <$> categories st))
                         (Category.name c)])
                   (posts st) (files st))
  | PostRow p =>
      Some (mkStore (users st) (categories st)
              (posts st ++ [with_post_id (next_id (BlogPost.id <$> posts st)) p])
              (files st))
  end.

Fixpoint insert_rows (st : Store) (rs : list Row) : option Store :=
  match rs with
  | [] => Some st
  | r :: rest =>
      match insert_row st r with
      | Some st' => insert_rows st' rest
      | None => None
      end
  end.

(** Code that may raise: the world after it, and the exception text or the
    value. *)
Definition M (A : Type) : Type := World → World * (string + A).

Definition ret {A} (a : A) : M A := fun w => (w, inr a).

Definition bind {A B} (m : M A) (k : A → M B) : M B :=
  fun w =>
    match m w with
    | (w', inr a) => k a w'
    | (w', inl e) => (w', inl e)
    end.

Definition raise {A} (e : string) : M A := fun w => (w, inl e).

Declare Scope M_scope.
Delimit Scope M_scope with M.
Notation "x ← y ; z" := (bind y (fun x => z))
  (at level 20, y at level 100, z at level 200, only parsing) : M_scope.
Notation "x ;; z" := (bind x (fun _ => z))
  (at level 100, z at level 200, only parsing, right associativity) : M_scope.
Local Open Scope M_scope.

(** [try: body except Exception as e: handler(e)] *)
Definition try_except {A} (body : M A) (handler : string → M A) : M A :=
  fun w =>
    match body w with
    | (w', inr a) => (w', inr a)
    | (w', inl e) => handler e w'
    end.

(** [db.session.add(row)] *)
Definition session_add (r : Row) : M unit :=
  fun w => (mkWorld (db w) (pending w ++ [r]) (cookie w) (flashed w), inr tt).

(** [db.session.commit()]: all pending rows are written, or none is and the
    call raises. *)
Definition session_commit (env : Env) : M unit :=
  fun w =>
    if commit_ok env then
      match insert_rows (db w) (pending w) with
      | Some st' => (mkWorld st' [] (cookie w) (flashed w), inr tt)
      | None => (w, inl (error_text env))
      end
    else (w, inl (error_text env)).

(** [db.session.rollback()] *)
Definition session_rollback : M unit :=
  fun w => (mkWorld (db w) [] (cookie w) (flashed w), inr tt).

(** [file.save(path)]: the file at [path] now has the uploaded content,
    whatever was there before. *)
Definition save (env : Env) (f : FileStorage) (path : string) : M unit :=
  fun w =>
    if save_ok env then
      (mkWorld (mkStore (users (db w)) (categories (db w)) (posts (db w))
                  (<[path := stream f]> (files (db w))))
               (pending w) (cookie w) (flashed w), inr tt)
    else (w, inl (error_text env)).

(** [flash(message, category)] *)
Definition flash (message : Flashed) (category : string) : M unit :=
  fun w =>
    (mkWorld (db w) (pending w) (cookie w) (flashed w ++ [(message, category)]),
     inr tt).

(** [login_user(user)] *)
Definition login_user (user : User.t) : M unit :=
  fun w => (mkWorld (db w) (pending w) (Some (User.id user)) (flashed w), inr tt).

(** [logout_user()] *)
Definition logout_user : M unit :=
  fun w => (mkWorld (db w) (pending w) None (flashed w), inr tt).

(** Reading the world. *)
Definition get_store : M Store := fun w => (w, inr (db w)).
Definition get_cookie : M Session := fun w => (w, inr (cookie w)).

(** [for x in xs: body(x)] *)
Fixpoint for_each {A} (xs : list A) (body : A → M unit) : M unit :=
  match xs with
  | [] => ret tt
  | x :: rest => body x ;; for_each rest body
  end.

(** A view runs on the stored state and the request's cookie; the rows left
    pending are dropped with the request, and an exception nobody caught is
    a 500. *)
Definition run (view : M Response) (st : Store) (sess : Session) : Result :=
  match view (mkWorld st [] sess []) with
  | (w, inr r) => mkResult (db w) (cookie w) (flashed w) r
  | (w, inl _) => mkResult (db w) (cookie w) (flashed w) (Abort 500)
  end.

(** ** The application *)

(** The libraries and the deployment the routes rely on: the directory that
    holds [app.py], werkzeug's password hashing (with the salt it draws made
    explicit) and file name sanitising, and the [Email()] validator. *)
Class Libraries := {
  app_dir : string;
  generate_password_hash : string → string → string;
  check_password_hash : string → string → bool;
  secure_filename : string → string;
  Email : string → bool
}.

Section App.

Context `{Libraries}.

Definition UPLOAD_FOLDER : string :=
  path_join (path_join app_dir "static") "uploads".

(** [login_manager.login_view], [login_manager.login_message_category]
    and Flask-Login's default [login_message]. *)
Definition login_view : string := "login".
Definition login_message_category : string := "info".
Definition login_message : string := "Please log in to access this page.".

(** *** RegistrationForm *)

Definition validate_username (st : Store) (username : string) : Verdict :=
  match user_by_username st username with
  | Some _ => Invalid (Message "That username is taken. Please choose a different one.")
  | None => Pass
  end.

Definition validate_email (st : Store) (email : string) : Verdict :=
  match user_by_email st email with
  | Some _ => Invalid (Message "That email is taken. Please choose a different one.")
  | None => Pass
  end.

Definition Email_validator (data : string) : Verdict :=
  if Email data then Pass else Invalid BadEmail.

Definition RegistrationForm_errors (st : Store) (f : RegistrationForm.t)
  : list (string * list ValidationError) :=
  form_errors
    [ ("role", run_chain [valid_choice role_choices (RegistrationForm.role f);
                          DataRequired (RegistrationForm.role f)]);
      ("first_name", run_chain [DataRequired (RegistrationForm.first_name f);
                                Length 2 (Some 50%nat) (RegistrationForm.first_name f)]);
      ("last_name", run_chain [DataRequired (RegistrationForm.last_name f);
                               Length 2 (Some 50%nat) (RegistrationForm.last_name f)]);
      ("username", run_chain [DataRequired (RegistrationForm.username f);
                              Length 2 (Some 20%nat) (RegistrationForm.username f);
                              validate_username st (RegistrationForm.username f)]);
      ("email", run_chain [DataRequired (RegistrationForm.email f);
                           Email_validator (RegistrationForm.email f);
                           validate_email st (RegistrationForm.email f)]);
      ("password", run_chain [DataRequired (RegistrationForm.password f)]);
      ("confirm_password",
        run_chain [DataRequired (RegistrationForm.confirm_password f);
                   EqualTo "password" (RegistrationForm.password f)
                     (RegistrationForm.confirm_password f)]);
      ("address_line1", run_chain [DataRequired (RegistrationForm.address_line1 f)]);
      ("city", run_chain [DataRequired (RegistrationForm.city f)]);
      ("state", run_chain [DataRequired (RegistrationForm.state f);
                           Length 0 (Some 50%nat) (RegistrationForm.state f)]);
      ("pincode", run_chain [DataRequired (RegistrationForm.pincode f);
                             Length 5 (Some 10%nat) (RegistrationForm.pincode f)]);
      ("profile_picture",
        run_chain [FileAllowed ["jpg"; "png"]
                     (file_data (RegistrationForm.profile_picture f))]) ].

(** *** LoginForm *)

Definition LoginForm_errors (f : LoginForm.t)
  : list (string * list ValidationError) :=
  form_errors
    [ ("username", run_chain [DataRequired (LoginForm.username f)]);
      ("password", run_chain [DataRequired (LoginForm.password f)]);
      ("role", run_chain [valid_choice role_choices (LoginForm.role f);
                          DataRequired (LoginForm.role f)]) ].

(** *** BlogPostForm *)

(** [DataRequired()] on the integer field: the value is there and is not
    0. *)
Definition DataRequired_int (data : option Z) : Verdict :=
  match data with
  | Some 0 | None => Stop Required
  | Some _ => Pass
  end.

(** [form.category.choices = [(c.id, c.name) for c in Category.query.all()]] *)
Definition category_choices (st : Store) : list (option Z) :=
  (fun c => Some (Category.id c)) <$> categories st.

Definition BlogPostForm_errors (st : Store) (f : BlogPostForm.t)
  : list (string * list ValidationError) :=
  form_errors
    [ ("title", run_chain [DataRequired (BlogPostForm.title f);
                           Length 0 (Some 100%nat) (BlogPostForm.title f)]);
      ("image", run_chain [FileAllowed ["jpg"; "png"; "jpeg"]
                             (file_data (BlogPostForm.image f))]);
      ("category", run_chain [valid_choice (category_choices st) (BlogPostForm.category f);
                              DataRequired_int (BlogPostForm.category f)]);
      ("summary", run_chain [DataRequired (BlogPostForm.summary f);
                             Length 0 (Some 200%nat) (BlogPostForm.summary f)]);
      ("content", run_chain [DataRequired (BlogPostForm.content f)]) ].

(** [form.errors] as the route sees it: empty until the form has been
    validated, which [validate_on_submit] does for a POST only. *)
Definition errors_of (m : Method) (errors : list (string * list ValidationError))
  : list (string * list ValidationError) :=
  match m with POST => errors | GET => [] end.

(** [form.validate_on_submit()].  The CSRF token Flask-WTF adds to every
    form is taken to be valid. *)
Definition validate_on_submit (m : Method)
    (errors : list (string * list ValidationError)) : bool :=
  match m with POST => bool_decide (errors = []) | GET => false end.

(** The loop that flashes the validation errors. *)
Definition flash_form_errors (errors : list (string * list ValidationError))
  : M unit :=
  for_each errors (fun fe =>
    for_each fe.2 (fun error => flash (FieldError fe.1 error) "danger")).

(** *** Routes *)

Definition home : M Response := ret (Render "home.html" NoContext).

(** The body of [register]'s [try]. *)
Definition register_try (f : RegistrationForm.t) (env : Env) : M Response :=
  let hashed_password :=
    generate_password_hash (salt env) (RegistrationForm.password f) in
  profile_pic_filename ←
    match file_data (RegistrationForm.profile_picture f) with
    | Some data =>
        let filename := secure_filename (filename data) in
        let profile_dir := path_join UPLOAD_FOLDER "profile_pics" in
        let file_path := path_join profile_dir filename in
        save env data file_path ;;
        ret (Some ("profile_pics/" ++ filename))
    | None => ret None
    end;
  let user :=
    User.mk 0 (RegistrationForm.username f) (RegistrationForm.email f)
      hashed_password (RegistrationForm.role f)
      (RegistrationForm.first_name f) (RegistrationForm.last_name f)
      (RegistrationForm.address_line1 f) (RegistrationForm.city f)
      (RegistrationForm.state f) (RegistrationForm.pincode f)
      profile_pic_filename in
  session_add (UserRow user) ;;
  session_commit env ;;
  flash (Text "Your account has been created! You can now log in") "success" ;;
  ret (Redirect (url_for "login") None).

Definition register (m : Method) (f : RegistrationForm.t) (env : Env)
  : M Response :=
  st ← get_store;
  let errors := RegistrationForm_errors st f in
  let finish :=
    flash_form_errors (errors_of m errors) ;;
    ret (Render "register.html" NoContext) in
  if validate_on_submit m errors then
    try_except (register_try f env)
      (fun e =>
         session_rollback ;;
         flash (Text ("Error creating account: " ++ e)) "danger" ;;
         finish)
  else finish.

Definition login (m : Method) (f : LoginForm.t) (next_page : option string)
  : M Response :=
  let errors := LoginForm_errors f in
  let finish :=
    flash_form_errors (errors_of m errors) ;;
    ret (Render "login.html" NoContext) in
  if validate_on_submit m errors then
    st ← get_store;
    match user_by_username st (LoginForm.username f) with
    | Some user =>
        if check_password_hash (User.password user) (LoginForm.password f)
           && bool_decide (User.role user = LoginForm.role f)
        then
          login_user user ;;
          let target :=
            match next_page with
            | Some url => if bool_decide (url = "") then None else Some url
            | None => None
            end in
          if bool_decide (User.role user = "doctor")
          then ret (Redirect (default (url_for "doctors_dashboard") target) None)
          else ret (Redirect (default (url_for "patients_dashboard") target) None)
        else
          flash (Text "Login Unsuccessful. Please check username, password and role")
            "danger" ;;
          finish
    | None =>
        flash (Text "Login Unsuccessful. Please check username, password and role")
          "danger" ;;
        finish
    end
  else finish.

Definition logout : M Response :=
  logout_user ;; ret (Redirect (url_for "home") None).

(** [current_user]: the row [load_user] finds for the id in the cookie. *)
Definition current_user : M (option User.t) :=
  st ← get_store;
  sess ← get_cookie;
  ret (sess ≫= load_user st).

(** [login_manager.unauthorized()] with a [login_view] set. *)
Definition unauthorized (path : string) : M Response :=
  flash (Text login_message) login_message_category ;;
  ret (Redirect (url_for login_view) (Some path)).

(** [@login_required] around a view of the route at [path]. *)
Definition login_required (path : string) (view : User.t → M Response)
  : M Response :=
  user ← current_user;
  match user with
  | Some u => view u
  | None => unauthorized path
  end.

Definition doctors_dashboard : M Response :=
  login_required "/doctors_dashboard" (fun current_user =>
    if bool_decide (User.role current_user ≠ "doctor") then ret (Abort 403)
    else ret (Render "doctors_dashboard.html" (UserContext current_user))).

Definition patients_dashboard : M Response :=
  login_required "/patients_dashboard" (fun current_user =>
    if bool_decide (User.role current_user ≠ "patient") then ret (Abort 403)
    else ret (Render "patients_dashboard.html" (UserContext current_user))).

(** [BlogPost(...)]: a row built without [is_draft] gets the column's
    [default=True]. *)
Definition BlogPost_new (title : string) (image : option string)
    (summary content : string) (is_draft : option bool)
    (category_id doctor_id : Z) : BlogPost.t :=
  BlogPost.mk 0 title image content summary (default true is_draft)
    category_id doctor_id.

(** The body of [create_blog]'s [try].  A post without a category cannot
    be inserted ([nullable=False]). *)
Definition create_blog_try (current_user : User.t) (f : BlogPostForm.t)
    (env : Env) : M Response :=
  image_filename ←
    match file_data (BlogPostForm.image f) with
    | Some data =>
        let filename := secure_filename (filename data) in
        let blog_dir := path_join UPLOAD_FOLDER "blog_images" in
        let file_path := path_join blog_dir filename in
        save env data file_path ;;
        ret (Some ("blog_images/" ++ filename))
    | None => ret None
    end;
  match BlogPostForm.category f with
  | Some category =>
      let post :=
        BlogPost_new (BlogPostForm.title f) image_filename
          (BlogPostForm.summary f) (BlogPostForm.content f)
          (Some (boolean_data (BlogPostForm.is_draft f)))
          category (User.id current_user) in
      session_add (PostRow post) ;;
      session_commit env ;;
      flash (Text "Blog post created successfully!") "success" ;;
      ret (Redirect (url_for "my_posts") None)
  | None => raise (error_text env)
  end.

Definition create_blog (m : Method) (f : BlogPostForm.t) (env : Env)
  : M Response :=
  login_required "/blog/create" (fun current_user =>
    if bool_decide (User.role current_user ≠ "doctor") then ret (Abort 403)
    else
      st ← get_store;
      let finish := ret (Render "create_blog.html" (Title "Create Post")) in
      if validate_on_submit m (BlogPostForm_errors st f) then
        try_except (create_blog_try current_user f env)
          (fun e =>
             session_rollback ;;
             flash (Text ("Error creating blog post: " ++ e)) "danger" ;;
             finish)
      else finish).

(** [BlogPost.query.filter_by(doctor_id=...).all()] *)
Definition listByAuthor (st : Store) (doctor_id : Z) : list BlogPost.t :=
  filter (fun p => BlogPost.doctor_id p = doctor_id) (posts st).

Definition my_posts : M Response :=
  login_required "/blog/my_posts" (fun current_user =>
    if bool_decide (User.role current_user ≠ "doctor") then ret (Abort 403)
    else
      st ← get_store;
      let posts := listByAuthor st (User.id current_user) in
      ret (Render "my_blog_posts.html" (Posts posts "My Posts"))).

(** The dictionary [blog_home] builds, in insertion order: one key per
    category row, with the rows of
    [BlogPost.query.filter_by(category_id=category.id, is_draft=False).all()]. *)
Definition listPublishedByCategory (st : Store)
  : list (Category.t * list BlogPost.t) :=
  (fun category =>
     (category,
      filter (fun p => BlogPost.category_id p = Category.id category
                       ∧ BlogPost.is_draft p = false) (posts st)))
  <$> categories st.

Definition blog_home : M Response :=
  login_required "/blog" (fun current_user =>
    if bool_decide (User.role current_user ≠ "patient") then ret (Abort 403)
    else
      st ← get_store;
      let category_posts := listPublishedByCategory st in
      ret (Render "blog_posts.html" (CategoryPosts category_posts "Health Blog"))).

(** *** Database initialisation *)

Definition default_categories : list string :=
  ["Mental Health"; "Heart Disease"; "Covid19"; "Immunization"].

(** [Category.query.filter_by(name=cat_name).first()] inside the loop:
    the query flushes the session first, so it sees the rows added
    before it. *)
Definition category_known (cat_name : string) : M bool :=
  fun w =>
    (w, inr (bool_decide (is_Some (category_by_name (db w) cat_name))
             || existsb (fun r => match r with
                                  | CategoryRow c =>
                                      bool_decide (Category.name c = cat_name)
                                  | _ => false
                                  end) (pending w))).

Definition initialize_database_try (env : Env) : M unit :=
  for_each default_categories (fun cat_name =>
    known ← category_known cat_name;
    if known : bool then (ret tt : M unit)
    else session_add (CategoryRow (Category.mk 0 cat_name))) ;;
  session_commit env.

(** [None] is [sys.exit(1)]. *)
Definition initialize_database (env : Env) (st : Store) : option Store :=
  match initialize_database_try env (mkWorld st [] None []) with
  | (w, inr _) => Some (db w)
  | (_, inl _) => None
  end.

(** *** The server *)

Inductive Request :=
| ReqHome
| ReqRegister (m : Method) (f : RegistrationForm.t)
| ReqLogin (m : Method) (f : LoginForm.t) (next_page : option string)
| ReqLogout
| ReqDoctorsDashboard
| ReqPatientsDashboard
| ReqCreateBlog (m : Method) (f : BlogPostForm.t)
| ReqMyPosts
| ReqBlogHome.

Definition dispatch (req : Request) (env : Env) : M Response :=
  match req with
  | ReqHome => home
  | ReqRegister m f => register m f env
  | ReqLogin m f next_page => login m f next_page
  | ReqLogout => logout
  | ReqDoctorsDashboard => doctors_dashboard
  | ReqPatientsDashboard => patients_dashboard
  | ReqCreateBlog m f => create_blog m f env
  | ReqMyPosts => my_posts
  | ReqBlogHome => blog_home
  end.

Definition serve (st : Store) (sess : Session) (req : Request) (env : Env)
  : Result :=
  run (dispatch req env) st sess.

(** One step of the deployment: a request is served (with whatever cookie
    the client holds), or the application is started again. *)
Inductive step : Store → Store → Prop :=
| step_request st sess req env :
    step st (store (serve st sess req env))
| step_restart st env st' :
    initialize_database env st = Some st' → step st st'.

(** The stored states the application can be in: the first start on an
    empty database, then any number of steps. *)
Definition reachable (st : Store) : Prop :=
  ∃ env st0, initialize_database env empty_store = Some st0 ∧ rtc step st0 st.

End App.

(** ** Outcomes

    Names for the results the routes produce, used to state what a request
    does. *)

Definition error_flashes (errors : list (string * list ValidationError))
  : list (Flashed * string) :=
  errors ≫= (fun fe => (fun e => (FieldError fe.1 e, "danger")) <$> fe.2).

Section Outcomes.
Context `{Libraries}.

Definition with_file (st : Store) (path content : string) : Store :=
  mkStore (users st) (categories st) (posts st) (<[path := content]> (files st)).

Definition profile_path (data : FileStorage) : string :=
  path_join (path_join UPLOAD_FOLDER "profile_pics") (secure_filename (filename data)).

Definition blog_image_path (data : FileStorage) : string :=
  path_join (path_join UPLOAD_FOLDER "blog_images") (secure_filename (filename data)).

Definition new_user (f : RegistrationForm.t) (env : Env) : User.t :=
  User.mk 0 (RegistrationForm.username f) (RegistrationForm.email f)
    (generate_password_hash (salt env) (RegistrationForm.password f))
    (RegistrationForm.role f)
    (RegistrationForm.first_name f) (RegistrationForm.last_name f)
    (RegistrationForm.address_line1 f) (RegistrationForm.city f)
    (RegistrationForm.state f) (RegistrationForm.pincode f)
    ((fun data => "profile_pics/" ++ secure_filename (filename data))
       <$> file_data (RegistrationForm.profile_picture f)).

Definition new_post (current_user : User.t) (f : BlogPostForm.t) (category : Z)
  : BlogPost.t :=
  BlogPost.mk 0 (BlogPostForm.title f)
    ((fun data => "blog_images/" ++ secure_filename (filename data))
       <$> file_data (BlogPostForm.image f))
    (BlogPostForm.content f) (BlogPostForm.summary f)
    (boolean_data (BlogPostForm.is_draft f)) category (User.id current_user).

Definition store_failure (what template : string) (ctx : Context)
    (st : Store) (sess : Session) (env : Env) : Result :=
  mkResult st sess [(Text (what ++ error_text env), "danger")] (Render template ctx).

(** The state after the upload step of a [try] body, when the step does
    not raise. *)
Definition uploaded (st : Store) (env : Env) (upload : option FileStorage)
    (path : FileStorage → string) : option Store :=
  match upload with
  | Some data =>
      if save_ok env then Some (with_file st (path data) (stream data)) else None
  | None => Some st
  end.

(** The state after add and commit of one row, when the commit does not
    raise. *)
Definition committed (st : Store) (env : Env) (r : Row) : option Store :=
  if commit_ok env then insert_row st r else None.

Definition invalid_credentials (st : Store) (sess : Session) : Result :=
  mkResult st sess
    [(Text "Login Unsuccessful. Please check username, password and role", "danger")]
    (Render "login.html" NoContext).

(** *** Invariants of the stored state *)

(** Stored user names and e-mail addresses passed [DataRequired]. *)
Definition identities_present (st : Store) : Prop :=
  ∀ u, u ∈ users st →
       blank (User.username u) = false ∧ blank (User.email u) = false.

(** Every post's [doctor_id] is the key of a user whose role is doctor. *)
Definition posts_by_doctors (st : Store) : Prop :=
  ∀ p, p ∈ posts st →
       ∃ u, load_user st (BlogPost.doctor_id p) = Some u ∧ User.role u = "doctor".

(** Every post's [category_id] is the key of a category. *)
Definition posts_in_categories (st : Store) : Prop :=
  ∀ p, p ∈ posts st →
       ∃ c, c ∈ categories st ∧ Category.id c = BlogPost.category_id p.

(** Every default category is there. *)
Definition seeded (st : Store) : Prop :=
  ∀ n, n ∈ default_categories →
       ∃ c, c ∈ categories st ∧ Category.name c = n.

(** *** Gates, and what a response shows *)

(** The role-gated routes: the path [login_required] sends along to the
    login page, and the role the view compares [current_user.role] with. *)
Definition gate (req : Request) : option (string * string) :=
  match req with
  | ReqDoctorsDashboard => Some ("/doctors_dashboard", "doctor")
  | ReqPatientsDashboard => Some ("/patients_dashboard", "patient")
  | ReqCreateBlog _ _ => Some ("/blog/create", "doctor")
  | ReqMyPosts => Some ("/blog/my_posts", "doctor")
  | ReqBlogHome => Some ("/blog", "patient")
  | _ => None
  end.

(** The posts a response hands to its template. *)
Definition shown (r : Response) : list BlogPost.t :=
  match r with
  | Render _ (Posts posts _) => posts
  | Render _ (CategoryPosts category_posts _) => category_posts ≫= snd
  | _ => []
  end.

(** The dashboard of a role. *)
Definition dashboard (role : string) : Request :=
  if bool_decide (role = "doctor") then ReqDoctorsDashboard
  else ReqPatientsDashboard.

(** *** More invariants of the stored state *)

(** Keys, user names and e-mail addresses are each held by one row. *)
Definition users_distinct (st : Store) : Prop :=
  NoDup (User.id <$> users st) ∧
  NoDup (User.username <$> users st) ∧
  NoDup (User.email <$> users st).

(** What [RegistrationForm] lets through, as far as the row keeps it. *)
Definition user_valid (u : User.t) : Prop :=
  User.role u ∈ role_choices ∧
  (2 ≤ String.length (User.username u) ≤ 20)%nat ∧
  (2 ≤ String.length (User.first_name u) ≤ 50)%nat ∧
  (2 ≤ String.length (User.last_name u) ≤ 50)%nat ∧
  (String.length (User.state u) ≤ 50)%nat ∧
  (5 ≤ String.length (User.pincode u) ≤ 10)%nat ∧
  Email (User.email u) = true ∧
  blank (User.address_line1 u) = false ∧
  blank (User.city u) = false.

(** What [BlogPostForm] lets through, as far as the row keeps it. *)
Definition post_valid (p : BlogPost.t) : Prop :=
  blank (BlogPost.title p) = false ∧
  (String.length (BlogPost.title p) ≤ 100)%nat ∧
  blank (BlogPost.summary p) = false ∧
  (String.length (BlogPost.summary p) ≤ 200)%nat ∧
  blank (BlogPost.content p) = false.

(** The category table after the first start. *)
Definition seed_table : list Category.t :=
  [Category.mk 1 "Mental Health"; Category.mk 2 "Heart Disease";
   Category.mk 3 "Covid19"; Category.mk 4 "Immunization"].

End Outcomes.


(** ** A sample deployment

    Concrete stand-ins for the libraries, and a short history of requests,
    to evaluate the routes on.  The hash stand-in only has the shape of a
    werkzeug hash (method, salt and digest separated by dollar signs); on the
    file names used here werkzeug's [secure_filename] gives the name back,
    as the stand-in does. *)

Module Sample.

Fixpoint contains_at (s : string) : bool :=
  match s with
  | EmptyString => false
  | String c rest => Ascii.eqb c "@"%char || contains_at rest
  end.

Definition libraries : Libraries := {|
  app_dir := "/srv/mediconnect";
  generate_password_hash := fun salt password => "plain$" ++ salt ++ "$" ++ password;
  check_password_hash := fun pwhash password => endswith pwhash ("$" ++ password);
  secure_filename := fun name => name;
  Email := contains_at
|}.

Definition env : Env := mkEnv "NaCl" true true "".

Definition db_down : Env := mkEnv "NaCl" true false "MySQL server has gone away".

Definition started : Store :=
  default empty_store (initialize_database env empty_store).

Definition alice : RegistrationForm.t :=
  RegistrationForm.mk "doctor" "Alice" "Adams" "alice" "alice@example.org"
    "Secr3t!" "Secr3t!" "1 Main Street" "Pune" "Maharashtra" "411001"
    (Some (mkFile "photo.png" "picture of Alice")).

Definition pat : RegistrationForm.t :=
  RegistrationForm.mk "patient" "Pat" "Brown" "pat" "pat@example.org"
    "hunter22" "hunter22" "2 Side Street" "Pune" "Maharashtra" "411002"
    (Some (mkFile "photo.png" "picture of Pat")).

Definition photo_path : string :=
  "/srv/mediconnect/static/uploads/profile_pics/photo.png".

Definition alice_registered : Store :=
  store (serve (H := libraries) started None (ReqRegister POST alice) env).

Definition both_registered : Store :=
  store (serve (H := libraries) alice_registered None (ReqRegister POST pat) env).

(** A post form sent without a value for the "Save as Draft" box, and one
    sent with the box ticked. *)
Definition flu_season : BlogPostForm.t :=
  BlogPostForm.mk "Flu Season" (Some (mkFile "flu.jpg" "picture of a syringe"))
    (Some 4) "Get your shot" "The flu season starts in October." None.

Definition heart_notes : BlogPostForm.t :=
  BlogPostForm.mk "Heart Notes" None (Some 2) "Work in progress"
    "Notes on blood pressure." (Some "y").

Definition flu_path : string :=
  "/srv/mediconnect/static/uploads/blog_images/flu.jpg".

Definition one_post : Store :=
  store (serve (H := libraries) both_registered (Some 1)
           (ReqCreateBlog POST flu_season) env).

Definition two_posts : Store :=
  store (serve (H := libraries) one_post (Some 1)
           (ReqCreateBlog POST heart_notes) env).

Definition alice_row : User.t :=
  User.mk 1 "alice" "alice@example.org" "plain$NaCl$Secr3t!" "doctor" "Alice"
    "Adams" "1 Main Street" "Pune" "Maharashtra" "411001"
    (Some "profile_pics/photo.png").

Definition pat_row : User.t :=
  User.mk 2 "pat" "pat@example.org" "plain$NaCl$hunter22" "patient" "Pat"
    "Brown" "2 Side Street" "Pune" "Maharashtra" "411002"
    (Some "profile_pics/photo.png").

Definition flu_row : BlogPost.t :=
  BlogPost.mk 1 "Flu Season" (Some "blog_images/flu.jpg")
    "The flu season starts in October." "Get your shot" false 4 1.

Definition heart_row : BlogPost.t :=
  BlogPost.mk 2 "Heart Notes" None "Notes on blood pressure."
    "Work in progress" true 2 1.


Definition carol_gif : RegistrationForm.t :=
  RegistrationForm.mk "patient" "Carol" "Clark" "carol" "carol@example.org"
    "opensesame" "opensesame" "3 Back Street" "Pune" "Maharashtra" "411003"
    (Some (mkFile "Carol.GIF" "moving picture of Carol")).

Definition flu_gif : BlogPostForm.t :=
  BlogPostForm.mk "Flu Season" (Some (mkFile "flu.gif" "moving syringe"))
    (Some 4) "Get your shot" "The flu season starts in October." None.


Definition alice_login : LoginForm.t := LoginForm.mk "alice" "Secr3t!" "doctor".

End Sample.

(** ** Properties *)

Section Properties.
Context `{Libraries}.

Local Open Scope list_scope.

Local Arguments insert_row : simpl never.

Ltac mbind_unfold := unfold bind, ret in *.

Ltac munfold :=
  unfold bind, ret, raise, try_except, get_store, get_cookie, flash,
    login_user, logout_user, session_add, session_rollback in *.

Lemma for_each_flash (field : string) (es : list ValidationError) w :
  for_each es (fun error => flash (FieldError field error) "danger") w
  = (mkWorld (db w) (pending w) (cookie w)
       (flashed w ++ ((fun e => (FieldError field e, "danger")) <$> es)), inr tt).
Proof.
  revert w. induction es as [|e es IH]; intros w; simpl.
  - munfold. rewrite app_nil_r. by destruct w.
  - munfold. simpl. rewrite IH. simpl. by rewrite <- app_assoc.
Qed.

Lemma flash_form_errors_run errors w :
  flash_form_errors errors w
  = (mkWorld (db w) (pending w) (cookie w) (flashed w ++ error_flashes errors),
     inr tt).
Proof.
  unfold flash_form_errors, error_flashes. revert w.
  induction errors as [|[field es] errors IH]; intros w; simpl.
  - munfold. rewrite app_nil_r. by destruct w.
  - mbind_unfold. rewrite for_each_flash. simpl. rewrite IH. simpl.
    by rewrite <- app_assoc.
Qed.

Lemma login_run st sess f next env :
  LoginForm_errors f = [] →
  serve st sess (ReqLogin POST f next) env =
    match user_by_username st (LoginForm.username f) with
    | Some user =>
        if check_password_hash (User.password user) (LoginForm.password f)
           && bool_decide (User.role user = LoginForm.role f)
        then mkResult st (Some (User.id user)) []
               (Redirect
                  (default (url_for (if bool_decide (User.role user = "doctor")
                                     then "doctors_dashboard" else "patients_dashboard"))
                     (match next with
                      | Some url => if bool_decide (url = "") then None else Some url
                      | None => None
                      end)) None)
        else invalid_credentials st sess
    | None => invalid_credentials st sess
    end.
Proof.
  intros Hv. unfold serve, run, dispatch, login, validate_on_submit, errors_of.
  rewrite Hv. simpl. munfold. simpl.
  destruct (user_by_username st (LoginForm.username f)) as [user|]; simpl.
  - destruct (check_password_hash _ _ && _); simpl.
    + by destruct (bool_decide (User.role user = "doctor")).
    + done.
  - done.
Qed.

Lemma register_run_invalid st sess m f env :
  validate_on_submit m (RegistrationForm_errors st f) = false →
  serve st sess (ReqRegister m f) env
  = mkResult st sess (error_flashes (errors_of m (RegistrationForm_errors st f)))
      (Render "register.html" NoContext).
Proof.
  intros Hv. unfold serve, run, dispatch, register. munfold. simpl.
  rewrite Hv. mbind_unfold. by rewrite flash_form_errors_run.
Qed.

Lemma register_run st sess f env :
  RegistrationForm_errors st f = [] →
  serve st sess (ReqRegister POST f) env
  = match uploaded st env (file_data (RegistrationForm.profile_picture f)) profile_path with
    | Some st1 =>
        match committed st1 env (UserRow (new_user f env)) with
        | Some st2 =>
            mkResult st2 sess
              [(Text "Your account has been created! You can now log in", "success")]
              (Redirect (url_for "login") None)
        | None =>
            store_failure "Error creating account: " "register.html" NoContext st1 sess env
        end
    | None => store_failure "Error creating account: " "register.html" NoContext st sess env
    end.
Proof.
  intros Hv. unfold serve, run, dispatch, register, register_try, uploaded,
    committed, new_user, store_failure, session_commit, save.
  munfold. simpl. rewrite Hv. simpl.
  destruct (file_data _) as [data|]; simpl.
  - destruct (save_ok env); simpl; [|done].
    destruct (commit_ok env); simpl; [|done].
    unfold profile_path, with_file. by destruct (insert_row _ _).
  - destruct (commit_ok env); simpl; [|done].
    by destruct (insert_row _ _).
Qed.

Lemma validate_on_submit_true m errors :
  validate_on_submit m errors = true ↔ m = POST ∧ errors = [].
Proof.
  destruct m; simpl.
  - split; [done|]. by intros [? _].
  - rewrite bool_decide_eq_true. split; [done|]. by intros [_ ?].
Qed.

Lemma create_blog_run st sess m f env :
  serve st sess (ReqCreateBlog m f) env
  = match sess ≫= load_user st with
    | None =>
        mkResult st sess [(Text login_message, login_message_category)]
          (Redirect (url_for login_view) (Some "/blog/create"))
    | Some current_user =>
        if bool_decide (User.role current_user ≠ "doctor")
        then mkResult st sess [] (Abort 403)
        else if validate_on_submit m (BlogPostForm_errors st f) then
          match uploaded st env (file_data (BlogPostForm.image f)) blog_image_path with
          | Some st1 =>
              match BlogPostForm.category f with
              | Some category =>
                  match committed st1 env (PostRow (new_post current_user f category)) with
                  | Some st2 =>
                      mkResult st2 sess
                        [(Text "Blog post created successfully!", "success")]
                        (Redirect (url_for "my_posts") None)
                  | None =>
                      store_failure "Error creating blog post: " "create_blog.html"
                        (Title "Create Post") st1 sess env
                  end
              | None =>
                  store_failure "Error creating blog post: " "create_blog.html"
                    (Title "Create Post") st1 sess env
              end
          | None =>
              store_failure "Error creating blog post: " "create_blog.html"
                (Title "Create Post") st sess env
          end
        else mkResult st sess [] (Render "create_blog.html" (Title "Create Post"))
    end.
Proof.
  unfold serve, run, dispatch, create_blog, login_required, current_user,
    unauthorized, create_blog_try, uploaded, committed, new_post, BlogPost_new,
    store_failure, session_commit, save, blog_image_path, with_file.
  munfold. simpl.
  destruct (sess ≫= load_user st) as [u|]; simpl; [|done].
  destruct (bool_decide (User.role u ≠ "doctor")); simpl; [done|].
  destruct (validate_on_submit _ _); simpl; [|done].
  destruct (file_data _) as [data|]; simpl.
  - destruct (save_ok env); simpl; [|done].
    destruct (BlogPostForm.category f) as [c|]; simpl; [|done].
    by destruct (commit_ok env).
  - destruct (BlogPostForm.category f) as [c|]; simpl; [|done].
    by destruct (commit_ok env).
Qed.

Lemma serve_store_other st sess req env :
  (∀ m f, req ≠ ReqRegister m f) → (∀ m f, req ≠ ReqCreateBlog m f) →
  store (serve st sess req env) = st.
Proof.
  intros Hr Hc. destruct req; try done; try (by exfalso; eapply Hr);
    try (by exfalso; eapply Hc).
  - unfold serve, run, dispatch, login. munfold. simpl.
    destruct (validate_on_submit _ _); simpl;
      [|by rewrite flash_form_errors_run].
    destruct (user_by_username _ _); simpl;
      [|by rewrite flash_form_errors_run].
    destruct (_ && _); simpl;
      [by destruct (bool_decide _)|by rewrite flash_form_errors_run].
  - unfold serve, run, dispatch, doctors_dashboard, login_required,
      current_user, unauthorized. munfold. simpl.
    repeat case_match; simplify_eq/=; done.
  - unfold serve, run, dispatch, patients_dashboard, login_required,
      current_user, unauthorized. munfold. simpl.
    repeat case_match; simplify_eq/=; done.
  - unfold serve, run, dispatch, my_posts, login_required,
      current_user, unauthorized. munfold. simpl.
    repeat case_match; simplify_eq/=; done.
  - unfold serve, run, dispatch, blog_home, login_required,
      current_user, unauthorized. munfold. simpl.
    repeat case_match; simplify_eq/=; done.
Qed.
(** *** What one request does to the tables *)

Lemma uploaded_tables st env upload path st1 :
  uploaded st env upload path = Some st1 →
  users st1 = users st ∧ categories st1 = categories st ∧ posts st1 = posts st.
Proof.
  unfold uploaded, with_file. intros Hu.
  destruct upload; [destruct (save_ok env)|]; by simplify_eq/=.
Qed.

Lemma committed_user st env u st2 :
  committed st env (UserRow u) = Some st2 →
  user_by_username st (User.username u) = None ∧
  user_by_email st (User.email u) = None ∧
  st2 = mkStore (users st ++ [with_user_id (next_id (User.id <$> users st)) u])
          (categories st) (posts st) (files st).
Proof.
  unfold committed, insert_row. intros Hc.
  destruct (commit_ok env); [|done].
  destruct (user_by_username st (User.username u)) eqn:Hn;
    destruct (user_by_email st (User.email u)) eqn:He;
    simpl in Hc; try done.
  by simplify_eq/=.
Qed.

Lemma committed_post st env p st2 :
  committed st env (PostRow p) = Some st2 →
  st2 = mkStore (users st) (categories st)
          (posts st ++ [with_post_id (next_id (BlogPost.id <$> posts st)) p])
          (files st).
Proof.
  unfold committed, insert_row. intros Hc.
  destruct (commit_ok env); by simplify_eq/=.
Qed.

Lemma serve_users st sess req env :
  users (store (serve st sess req env)) = users st ∨
  ∃ f, req = ReqRegister POST f ∧ RegistrationForm_errors st f = [] ∧
       users (store (serve st sess req env))
       = (users st ++ [with_user_id (next_id (User.id <$> users st))
                         (new_user f env)])%list.
Proof.
  destruct req as [|m f|m f next| | | |m f| |];
    try (left; by rewrite serve_store_other).
  - destruct (validate_on_submit m (RegistrationForm_errors st f)) eqn:Hv.
    + apply validate_on_submit_true in Hv as [-> Hv]. rewrite register_run by done.
      destruct (uploaded _ _ _ _) as [st1|] eqn:Hu; simpl; [|by left].
      apply uploaded_tables in Hu as (Hu & _ & _).
      destruct (committed _ _ _) as [st2|] eqn:Hc; simpl; [|by left].
      apply committed_user in Hc as (_ & _ & ->). simpl. rewrite Hu.
      right. by exists f.
    + rewrite register_run_invalid by done. by left.
  - left. rewrite create_blog_run.
    destruct (sess ≫= load_user st) as [u|]; [|done].
    destruct (bool_decide _); [done|].
    destruct (validate_on_submit _ _); [|done].
    destruct (uploaded _ _ _ _) as [st1|] eqn:Hu; simpl; [|done].
    apply uploaded_tables in Hu as (Hu & _ & _).
    destruct (BlogPostForm.category f) as [c|]; [|done].
    destruct (committed _ _ _) as [st2|] eqn:Hc; simpl; [|done].
    by apply committed_post in Hc as ->.
Qed.

Lemma serve_categories st sess req env :
  categories (store (serve st sess req env)) = categories st.
Proof.
  destruct req as [|m f|m f next| | | |m f| |];
    try (by rewrite serve_store_other).
  - destruct (validate_on_submit m (RegistrationForm_errors st f)) eqn:Hv.
    + apply validate_on_submit_true in Hv as [-> Hv]. rewrite register_run by done.
      destruct (uploaded _ _ _ _) as [st1|] eqn:Hu; simpl; [|done].
      apply uploaded_tables in Hu as (_ & Hu & _).
      destruct (committed _ _ _) as [st2|] eqn:Hc; simpl; [|done].
      by apply committed_user in Hc as (_ & _ & ->).
    + by rewrite register_run_invalid.
  - rewrite create_blog_run.
    destruct (sess ≫= load_user st) as [u|]; [|done].
    destruct (bool_decide _); [done|].
    destruct (validate_on_submit _ _); [|done].
    destruct (uploaded _ _ _ _) as [st1|] eqn:Hu; simpl; [|done].
    apply uploaded_tables in Hu as (_ & Hu & _).
    destruct (BlogPostForm.category f) as [c|]; [|done].
    destruct (committed _ _ _) as [st2|] eqn:Hc; simpl; [|done].
    by apply committed_post in Hc as ->.
Qed.

Lemma serve_posts st sess req env :
  posts (store (serve st sess req env)) = posts st ∨
  ∃ m f current_user category,
    req = ReqCreateBlog m f ∧
    sess ≫= load_user st = Some current_user ∧
    User.role current_user = "doctor" ∧
    validate_on_submit m (BlogPostForm_errors st f) = true ∧
    BlogPostForm.category f = Some category ∧
    response (serve st sess req env) = Redirect (url_for "my_posts") None ∧
    posts (store (serve st sess req env))
    = (posts st ++ [with_post_id (next_id (BlogPost.id <$> posts st))
                      (new_post current_user f category)])%list.
Proof.
  destruct req as [|m f|m f next| | | |m f| |];
    try (left; by rewrite serve_store_other).
  - left.
    destruct (validate_on_submit m (RegistrationForm_errors st f)) eqn:Hv.
    + apply validate_on_submit_true in Hv as [-> Hv]. rewrite register_run by done.
      destruct (uploaded _ _ _ _) as [st1|] eqn:Hu; simpl; [|done].
      apply uploaded_tables in Hu as (_ & _ & Hu).
      destruct (committed _ _ _) as [st2|] eqn:Hc; simpl; [|done].
      by apply committed_user in Hc as (_ & _ & ->).
    + by rewrite register_run_invalid.
  - rewrite create_blog_run.
    destruct (sess ≫= load_user st) as [u|] eqn:Hcu; [|by left].
    destruct (bool_decide (User.role u ≠ "doctor")) eqn:Hrole; [by left|].
    apply bool_decide_eq_false in Hrole. apply dec_stable in Hrole.
    destruct (validate_on_submit _ _) eqn:Hv; [|by left].
    destruct (uploaded _ _ _ _) as [st1|] eqn:Hu; simpl; [|by left].
    apply uploaded_tables in Hu as (_ & _ & Hu).
    destruct (BlogPostForm.category f) as [c|] eqn:Hcat; [|by left].
    destruct (committed _ _ _) as [st2|] eqn:Hc; simpl; [|by left].
    apply committed_post in Hc as ->. simpl. rewrite Hu.
    right. by exists m, f, u, c.
Qed.

(** *** Queries on a table that grows *)

Lemma find_app_Some {A} (f : A → bool) (l l' : list A) x :
  find f l = Some x → find f (l ++ l') = Some x.
Proof.
  induction l as [|a l IH]; simpl; [done|].
  destruct (f a); [done|]. apply IH.
Qed.

Lemma find_app_None {A} (f : A → bool) (l l' : list A) :
  find f l = None → find f (l ++ l') = find f l'.
Proof.
  induction l as [|a l IH]; simpl; [done|].
  destruct (f a); [done|]. apply IH.
Qed.

Lemma find_elem_of {A} (f : A → bool) (l : list A) x :
  find f l = Some x → x ∈ l ∧ f x = true.
Proof.
  intros Hf. apply find_some in Hf as [Hin Hx].
  split; [by apply list_elem_of_In|done].
Qed.

Lemma find_is_Some {A} (f : A → bool) (l : list A) x :
  x ∈ l → f x = true → is_Some (find f l).
Proof.
  intros Hin Hx. destruct (find f l) eqn:Hf; [by eexists|].
  apply list_elem_of_In in Hin.
  pose proof (find_none f l Hf x Hin) as Hn. congruence.
Qed.

(** *** Starting the application *)

Lemma insert_rows_categories st rows st' :
  (∀ r, r ∈ rows → ∃ c, r = CategoryRow c) →
  insert_rows st rows = Some st' →
  users st' = users st ∧ posts st' = posts st ∧ files st' = files st ∧
  (∃ l, categories st' = categories st ++ l) ∧
  (∀ c, CategoryRow c ∈ rows →
        ∃ c', c' ∈ categories st' ∧ Category.name c' = Category.name c).
Proof.
  revert st. induction rows as [|r rows IH]; intros st Hrows Hins; simpl in Hins.
  - simplify_eq. split_and!; try done.
    + exists []. by rewrite app_nil_r.
    + intros c Hc. by apply elem_of_nil in Hc.
  - destruct (Hrows r) as [c0 ->]; [by left|].
    destruct (insert_row st (CategoryRow c0)) as [st1|] eqn:H1; [|done].
    unfold insert_row in H1.
    destruct (bool_decide _); [done|]. simplify_eq.
    apply IH in Hins as (Hu & Hp & Hf & [l Hl] & Hall).
    2:{ intros r Hr. apply Hrows. by right. }
    simpl in *. split_and!; try done.
    + exists ([Category.mk (next_id (Category.id <$> categories st))
                 (Category.name c0)] ++ l).
      by rewrite Hl, <- app_assoc.
    + intros c [[= ->] | Hc]%elem_of_cons; [|by apply Hall].
      exists (Category.mk (next_id (Category.id <$> categories st))
                (Category.name c0)).
      split; [|done]. rewrite Hl, !elem_of_app, list_elem_of_singleton. auto.
Qed.

Lemma default_categories_loop names w :
  ∃ rows,
    for_each names (fun cat_name =>
      bind (category_known cat_name) (fun known : bool =>
        if known then ret tt
        else session_add (CategoryRow (Category.mk 0 cat_name)))) w
    = (mkWorld (db w) (pending w ++ rows) (cookie w) (flashed w), inr tt) ∧
    (∀ r, r ∈ rows → ∃ c, r = CategoryRow c) ∧
    (∀ n, n ∈ names →
       is_Some (category_by_name (db w) n) ∨
       ∃ c, CategoryRow c ∈ pending w ++ rows ∧ Category.name c = n).
Proof.
  revert w. induction names as [|n names IH]; intros w; simpl.
  - exists []. rewrite app_nil_r. split_and!.
    + by destruct w.
    + intros r Hr. by apply elem_of_nil in Hr.
    + intros n Hn. by apply elem_of_nil in Hn.
  - unfold bind at 1 2. unfold category_known at 1.
    destruct (bool_decide (is_Some (category_by_name (db w) n))) eqn:Hdb; simpl.
    { destruct (IH w) as (rows & Heq & Hrows & Hall).
      unfold ret at 1. simpl. exists rows. split_and!; [done..|].
      intros n' [->|Hn']%elem_of_cons; [|by apply Hall].
      left. by apply bool_decide_eq_true in Hdb. }
    destruct (existsb _ (pending w)) eqn:Hpend; simpl.
    { destruct (IH w) as (rows & Heq & Hrows & Hall).
      unfold ret at 1. simpl. exists rows. split_and!; [done..|].
      intros n' [->|Hn']%elem_of_cons; [|by apply Hall].
      right. apply existsb_exists in Hpend as (r & Hr & Hn).
      destruct r as [|c|]; try done. apply bool_decide_eq_true in Hn.
      exists c. split; [|done]. apply elem_of_app. left.
      by apply list_elem_of_In. }
    unfold session_add at 1. simpl.
    destruct (IH (mkWorld (db w)
                    (pending w ++ [CategoryRow (Category.mk 0 n)])
                    (cookie w) (flashed w)))
      as (rows & Heq & Hrows & Hall).
    simpl in *. exists (CategoryRow (Category.mk 0 n) :: rows).
    rewrite <- app_assoc in Heq. simpl in Heq.
    split_and!.
    + exact Heq.
    + intros r [->|Hr]%elem_of_cons; [by eexists|by apply Hrows].
    + intros n' [->|Hn']%elem_of_cons.
      * right. exists (Category.mk 0 n). split; [|done].
        rewrite elem_of_app, elem_of_cons. auto.
      * destruct (Hall n' Hn') as [?|(c & Hc & Hcn)]; [by left|].
        right. exists c. split; [|done].
        by rewrite <- app_assoc in Hc.
Qed.

Lemma initialize_database_spec env st st' :
  initialize_database env st = Some st' →
  users st' = users st ∧ posts st' = posts st ∧ files st' = files st ∧
  (∃ l, categories st' = categories st ++ l) ∧
  (∀ n, n ∈ default_categories →
        ∃ c, c ∈ categories st' ∧ Category.name c = n).
Proof.
  unfold initialize_database, initialize_database_try. unfold bind at 1.
  destruct (default_categories_loop default_categories (mkWorld st [] None []))
    as (rows & -> & Hrows & Hall).
  simpl. unfold session_commit. simpl.
  destruct (commit_ok env); [|done].
  destruct (insert_rows st rows) as [st1|] eqn:Hins; [|done].
  intros [= <-].
  apply insert_rows_categories in Hins as (Hu & Hp & Hf & [l Hl] & Hcats);
    [|done].
  split_and!; try done; [by exists l|].
  intros n Hn. destruct (Hall n Hn) as [Hdb|(c & Hc & Hcn)]; simpl in *.
  - destruct Hdb as [c Hc]. apply find_elem_of in Hc as [Hc Hcn].
    apply bool_decide_eq_true in Hcn.
    exists c. split; [|done]. rewrite Hl. apply elem_of_app. by left.
  - destruct (Hcats c Hc) as (c' & Hc' & Hn'). exists c'. by rewrite Hn'.
Qed.

(** *** What a valid form guarantees *)

Lemma form_errors_nil fields (i : nat) field errors :
  form_errors fields = [] → fields !! i = Some (field, errors) → errors = [].
Proof.
  unfold form_errors. intros Hnil Hin.
  destruct (decide (errors = [])) as [|Hne]; [done|].
  assert ((field, errors) ∈ filter (fun fe => fe.2 ≠ []) fields) as Hf.
  { apply list_elem_of_filter. split; [done|]. by eapply list_elem_of_lookup_2. }
  rewrite Hnil in Hf. by apply elem_of_nil in Hf.
Qed.

Lemma DataRequired_Pass data : DataRequired data = Pass → blank data = false.
Proof. unfold DataRequired. by destruct (blank data). Qed.

Lemma valid_choice_Pass {A} `{EqDecision A} (choices : list A) data :
  valid_choice choices data = Pass → data ∈ choices.
Proof.
  unfold valid_choice. destruct (bool_decide (data ∈ choices)) eqn:Hc; [|done].
  by apply bool_decide_eq_true in Hc.
Qed.

Lemma run_chain_nil v rest :
  run_chain (v :: rest) = [] → v = Pass ∧ run_chain rest = [].
Proof. by destruct v. Qed.

Lemma registration_valid st f :
  RegistrationForm_errors st f = [] →
  blank (RegistrationForm.username f) = false ∧
  user_by_username st (RegistrationForm.username f) = None ∧
  blank (RegistrationForm.email f) = false ∧
  user_by_email st (RegistrationForm.email f) = None ∧
  blank (RegistrationForm.password f) = false ∧
  RegistrationForm.role f ∈ role_choices.
Proof.
  intros Hv. unfold RegistrationForm_errors in Hv.
  pose proof (form_errors_nil _ 0 _ _ Hv eq_refl) as Hrole.
  pose proof (form_errors_nil _ 3 _ _ Hv eq_refl) as Hname.
  pose proof (form_errors_nil _ 4 _ _ Hv eq_refl) as Hmail.
  pose proof (form_errors_nil _ 5 _ _ Hv eq_refl) as Hpw.
  apply run_chain_nil in Hrole as [Hrole _].
  apply run_chain_nil in Hname as [Hname [_ [Hfree _]%run_chain_nil]%run_chain_nil].
  apply run_chain_nil in Hmail as [Hmail [_ [Hfree' _]%run_chain_nil]%run_chain_nil].
  apply run_chain_nil in Hpw as [Hpw _].
  unfold validate_username in Hfree. unfold validate_email in Hfree'.
  split_and!.
  - by apply DataRequired_Pass.
  - by destruct (user_by_username _ _).
  - by apply DataRequired_Pass.
  - by destruct (user_by_email _ _).
  - by apply DataRequired_Pass.
  - by apply valid_choice_Pass.
Qed.

Lemma blog_post_valid st f :
  BlogPostForm_errors st f = [] →
  ∃ category c, BlogPostForm.category f = Some category ∧
                c ∈ categories st ∧ Category.id c = category.
Proof.
  intros Hv. unfold BlogPostForm_errors in Hv.
  pose proof (form_errors_nil _ 2 _ _ Hv eq_refl) as Hcat.
  apply run_chain_nil in Hcat as [Hcat _].
  apply valid_choice_Pass in Hcat. unfold category_choices in Hcat.
  apply list_elem_of_fmap in Hcat as (c & Hc & Hin).
  by exists (Category.id c), c.
Qed.

Lemma login_valid f :
  LoginForm_errors f = [] →
  blank (LoginForm.username f) = false ∧ blank (LoginForm.password f) = false ∧
  LoginForm.role f ∈ role_choices.
Proof.
  intros Hv. unfold LoginForm_errors in Hv.
  pose proof (form_errors_nil _ 0 _ _ Hv eq_refl) as Hname.
  pose proof (form_errors_nil _ 1 _ _ Hv eq_refl) as Hpw.
  pose proof (form_errors_nil _ 2 _ _ Hv eq_refl) as Hrole.
  apply run_chain_nil in Hname as [Hname _].
  apply run_chain_nil in Hpw as [Hpw _].
  apply run_chain_nil in Hrole as [Hrole _].
  split_and!.
  - by apply DataRequired_Pass.
  - by apply DataRequired_Pass.
  - by apply valid_choice_Pass.
Qed.

(** *** Steps only add rows *)

Lemma elem_of_app_singleton {A} (l : list A) (x y : A) :
  x ∈ l ++ [y] → x ∈ l ∨ x = y.
Proof.
  intros [?|?%list_elem_of_singleton]%elem_of_app; auto.
Qed.

Lemma step_users st st' : step st st' → ∃ l, users st' = users st ++ l.
Proof.
  intros [st0 sess req env|st0 env st1 Hinit].
  - destruct (serve_users st0 sess req env) as [->|(f & _ & _ & ->)].
    + exists []. by rewrite app_nil_r.
    + by eexists.
  - apply initialize_database_spec in Hinit as (-> & _).
    exists []. by rewrite app_nil_r.
Qed.

Lemma step_categories st st' :
  step st st' → ∃ l, categories st' = categories st ++ l.
Proof.
  intros [st0 sess req env|st0 env st1 Hinit].
  - rewrite serve_categories. exists []. by rewrite app_nil_r.
  - by apply initialize_database_spec in Hinit as (_ & _ & _ & ? & _).
Qed.

Lemma steps_users st st' : rtc step st st' → ∃ l, users st' = users st ++ l.
Proof.
  induction 1 as [st|st st1 st2 Hstep _ [l2 IH]].
  - exists []. by rewrite app_nil_r.
  - destruct (step_users _ _ Hstep) as [l1 Hl1].
    exists (l1 ++ l2). by rewrite IH, Hl1, app_assoc.
Qed.

Lemma load_user_found st i u :
  load_user st i = Some u → u ∈ users st ∧ User.id u = i.
Proof.
  unfold load_user. intros [Hin Hid]%find_elem_of.
  by apply bool_decide_eq_true in Hid.
Qed.

Lemma load_user_grows st st' l i u :
  users st' = users st ++ l → load_user st i = Some u → load_user st' i = Some u.
Proof. unfold load_user. intros ->. apply find_app_Some. Qed.

Lemma user_by_username_found st name u :
  user_by_username st name = Some u → u ∈ users st ∧ User.username u = name.
Proof.
  unfold user_by_username. intros [Hin Hid]%find_elem_of.
  by apply bool_decide_eq_true in Hid.
Qed.

Lemma user_by_email_found st mail u :
  user_by_email st mail = Some u → u ∈ users st ∧ User.email u = mail.
Proof.
  unfold user_by_email. intros [Hin Hid]%find_elem_of.
  by apply bool_decide_eq_true in Hid.
Qed.

Lemma user_by_username_grows st st' l name u :
  users st' = users st ++ l →
  user_by_username st name = Some u → user_by_username st' name = Some u.
Proof. unfold user_by_username. intros ->. apply find_app_Some. Qed.

(** *** The invariants hold in every reachable state *)

Lemma identities_present_step st st' :
  step st st' → identities_present st → identities_present st'.
Proof.
  intros [st0 sess req env|st0 env st1 Hinit] Hinv.
  - destruct (serve_users st0 sess req env) as [Hu|(f & _ & Hv & Hu)];
      unfold identities_present; rewrite Hu; [done|].
    intros u [Hin | ->]%elem_of_app_singleton; [by apply Hinv|].
    apply registration_valid in Hv as (? & _ & ? & _). by simpl.
  - apply initialize_database_spec in Hinit as (Hu & _).
    unfold identities_present. by rewrite Hu.
Qed.

Lemma posts_by_doctors_serve st sess req env :
  posts_by_doctors st → posts_by_doctors (store (serve st sess req env)).
Proof.
  intros Hinv p Hp.
  destruct (step_users st (store (serve st sess req env))) as [l Hl];
    [constructor|].
  destruct (serve_posts st sess req env)
    as [Hposts|(m & f & cu & c & _ & Hcu & Hrole & _ & _ & _ & Hposts)];
    rewrite Hposts in Hp.
  - destruct (Hinv p Hp) as (u & Hu & Hr). exists u.
    split; [by eapply load_user_grows|done].
  - apply elem_of_app_singleton in Hp as [Hp | ->].
    + destruct (Hinv p Hp) as (u & Hu & Hr). exists u.
      split; [by eapply load_user_grows|done].
    + exists cu. split; [|done]. simpl.
      destruct sess as [i|]; [|done]. simpl in Hcu.
      eapply load_user_grows; [done|].
      by apply load_user_found in Hcu as Hid; destruct Hid as [_ ->].
Qed.

Lemma posts_by_doctors_step st st' :
  step st st' → posts_by_doctors st → posts_by_doctors st'.
Proof.
  intros [st0 sess req env|st0 env st1 Hinit] Hinv.
  - by apply posts_by_doctors_serve.
  - apply initialize_database_spec in Hinit as (Hu & Hp & _).
    intros p. rewrite Hp. intros Hin. destruct (Hinv p Hin) as (u & Hl & Hr).
    exists u. split; [|done]. unfold load_user in *. by rewrite Hu.
Qed.

Lemma posts_in_categories_step st st' :
  step st st' → posts_in_categories st → posts_in_categories st'.
Proof.
  intros Hstep Hinv p Hp.
  destruct (step_categories _ _ Hstep) as [l Hl]. rewrite Hl.
  destruct Hstep as [st0 sess req env|st0 env st1 Hinit].
  - destruct (serve_posts st0 sess req env)
      as [Hposts|(m & f & cu & c & _ & _ & _ & Hv & Hc & _ & Hposts)];
      rewrite Hposts in Hp.
    + destruct (Hinv p Hp) as (c & Hc & Hid). exists c.
      split; [|done]. apply elem_of_app. by left.
    + apply elem_of_app_singleton in Hp as [Hp | ->].
      * destruct (Hinv p Hp) as (c' & Hc' & Hid). exists c'.
        split; [|done]. apply elem_of_app. by left.
      * apply validate_on_submit_true in Hv as [_ Hv].
        apply blog_post_valid in Hv as (c' & cat & Hc' & Hin & Hid).
        exists cat. simpl. split; [apply elem_of_app; by left|congruence].
  - apply initialize_database_spec in Hinit as (_ & Hposts & _).
    rewrite Hposts in Hp. destruct (Hinv p Hp) as (c & Hc & Hid). exists c.
    split; [|done]. apply elem_of_app. by left.
Qed.

Lemma seeded_step st st' : step st st' → seeded st → seeded st'.
Proof.
  intros Hstep Hinv n Hn. destruct (step_categories _ _ Hstep) as [l Hl].
  destruct (Hinv n Hn) as (c & Hc & Hname). exists c.
  split; [|done]. rewrite Hl. apply elem_of_app. by left.
Qed.

Lemma invariants_step st st' :
  step st st' →
  identities_present st ∧ posts_by_doctors st ∧ posts_in_categories st ∧ seeded st →
  identities_present st' ∧ posts_by_doctors st' ∧ posts_in_categories st' ∧ seeded st'.
Proof.
  intros Hstep (? & ? & ? & ?).
  split_and!; eauto using identities_present_step, posts_by_doctors_step,
    posts_in_categories_step, seeded_step.
Qed.

Lemma reachable_invariants st :
  reachable st →
  identities_present st ∧ posts_by_doctors st ∧ posts_in_categories st ∧ seeded st.
Proof.
  intros (env & st0 & Hinit & Hsteps).
  assert (identities_present st0 ∧ posts_by_doctors st0 ∧
          posts_in_categories st0 ∧ seeded st0) as Hinv0.
  { apply initialize_database_spec in Hinit as (Hu & Hp & _ & _ & Hseed).
    simpl in *. split_and!; [| | |done].
    - intros u. rewrite Hu. by intros ?%elem_of_nil.
    - intros p. rewrite Hp. by intros ?%elem_of_nil.
    - intros p. rewrite Hp. by intros ?%elem_of_nil. }
  clear Hinit. induction Hsteps as [st0|st0 st1 st2 Hstep _ IH]; [done|].
  apply IH. by eapply invariants_step.
Qed.

(** *** The role-gated views *)

Lemma my_posts_run st sess env :
  serve st sess ReqMyPosts env
  = match sess ≫= load_user st with
    | None =>
        mkResult st sess [(Text login_message, login_message_category)]
          (Redirect (url_for login_view) (Some "/blog/my_posts"))
    | Some current_user =>
        if bool_decide (User.role current_user ≠ "doctor")
        then mkResult st sess [] (Abort 403)
        else mkResult st sess []
               (Render "my_blog_posts.html"
                  (Posts (listByAuthor st (User.id current_user)) "My Posts"))
    end.
Proof.
  unfold serve, run, dispatch, my_posts, login_required, current_user,
    unauthorized. munfold. simpl.
  destruct (sess ≫= load_user st) as [u|]; simpl; [|done].
  by destruct (bool_decide _).
Qed.

Lemma blog_home_run st sess env :
  serve st sess ReqBlogHome env
  = match sess ≫= load_user st with
    | None =>
        mkResult st sess [(Text login_message, login_message_category)]
          (Redirect (url_for login_view) (Some "/blog"))
    | Some current_user =>
        if bool_decide (User.role current_user ≠ "patient")
        then mkResult st sess [] (Abort 403)
        else mkResult st sess []
               (Render "blog_posts.html"
                  (CategoryPosts (listPublishedByCategory st) "Health Blog"))
    end.
Proof.
  unfold serve, run, dispatch, blog_home, login_required, current_user,
    unauthorized. munfold. simpl.
  destruct (sess ≫= load_user st) as [u|]; simpl; [|done].
  by destruct (bool_decide _).
Qed.

(** *** Claims *)

(** C1.  A login whose form validates is answered with the single
    "Login Unsuccessful" result exactly when the user name is unknown, or
    the password does not check against the stored hash, or the claimed
    role is not the stored role.  So a login with the right user name and
    password and another role fails, and its result is the result of a
    login that fails on the password. *)
Theorem login_invalid_credentials st sess f next env :
  LoginForm_errors f = [] →
  (serve st sess (ReqLogin POST f next) env = invalid_credentials st sess ↔
   match user_by_username st (LoginForm.username f) with
   | None => True
   | Some user =>
       check_password_hash (User.password user) (LoginForm.password f) = false ∨
       User.role user ≠ LoginForm.role f
   end) ∧
  (∀ user,
     user_by_username st (LoginForm.username f) = Some user →
     check_password_hash (User.password user) (LoginForm.password f) = true →
     LoginForm.role f ≠ User.role user →
     serve st sess (ReqLogin POST f next) env = invalid_credentials st sess ∧
     ∀ f' next' env',
       LoginForm_errors f' = [] →
       user_by_username st (LoginForm.username f') = Some user →
       check_password_hash (User.password user) (LoginForm.password f') = false →
       serve st sess (ReqLogin POST f' next') env'
       = serve st sess (ReqLogin POST f next) env).
Proof.
  intros Hv. split.
  - rewrite login_run by done.
    destruct (user_by_username st (LoginForm.username f)) as [user|]; [|done].
    destruct (check_password_hash _ _) eqn:Hpw; simpl.
    + destruct (bool_decide (User.role user = LoginForm.role f)) eqn:Hrole.
      * apply bool_decide_eq_true in Hrole. split; [done|]. by intros [?|?].
      * apply bool_decide_eq_false in Hrole. split; [by right|done].
    + split; [by left|done].
  - intros user Hu Hpw Hrole. rewrite (login_run _ _ f) by done.
    rewrite Hu, Hpw. simpl. rewrite bool_decide_eq_false_2 by done.
    split; [done|].
    intros f' next' env' Hv' Hu' Hpw'. rewrite login_run by done.
    by rewrite Hu', Hpw'.
Qed.

(** C4.  On [/blog/create] a logged-in patient gets 403 and nothing else
    happens; a request without a session is sent to the login page, with
    the path it asked for.  The two responses differ, and whoever is logged
    in without the doctor role gets the 403, never the redirect. *)
Theorem create_blog_forbidden_or_unauthenticated st uid patient m f env :
  load_user st uid = Some patient →
  User.role patient = "patient" →
  serve st (Some uid) (ReqCreateBlog m f) env
  = mkResult st (Some uid) [] (Abort 403) ∧
  serve st None (ReqCreateBlog m f) env
  = mkResult st None [(Text login_message, "info")]
      (Redirect "/login" (Some "/blog/create")) ∧
  response (serve st (Some uid) (ReqCreateBlog m f) env)
  ≠ response (serve st None (ReqCreateBlog m f) env) ∧
  (∀ sess user,
     sess ≫= load_user st = Some user → User.role user ≠ "doctor" →
     response (serve st sess (ReqCreateBlog m f) env) = Abort 403).
Proof.
  intros Hu Hrole. rewrite !create_blog_run. simpl. rewrite Hu, Hrole. simpl.
  split_and!; try done.
  intros sess user Hs Hr. rewrite create_blog_run, Hs.
  by rewrite bool_decide_eq_true_2.
Qed.

(** *** Registration with a taken name or address *)

Lemma error_flashes_elem errors field es e :
  (field, es) ∈ errors → e ∈ es →
  (FieldError field e, "danger") ∈ error_flashes errors.
Proof.
  intros Hin He. unfold error_flashes. apply list_elem_of_bind.
  exists (field, es). split; [|done]. simpl.
  by apply (list_elem_of_fmap_2 (fun e => (FieldError field e, "danger"))).
Qed.

Lemma form_errors_elem fields (i : nat) field es :
  fields !! i = Some (field, es) → es ≠ [] → (field, es) ∈ form_errors fields.
Proof.
  intros Hi Hne. unfold form_errors. apply list_elem_of_filter.
  split; [done|]. by eapply list_elem_of_lookup_2.
Qed.

Lemma taken_reported data v (e : ValidationError) :
  blank data = false → (∀ e', v ≠ Stop e') →
  e ∈ run_chain [DataRequired data; v; Invalid e] ∧
  run_chain [DataRequired data; v; Invalid e] ≠ [].
Proof.
  intros Hb Hv. unfold DataRequired. rewrite Hb. simpl.
  destruct v as [|e'|e']; simpl; [| |by destruct (Hv e')];
    rewrite ?elem_of_cons; auto.
Qed.

Lemma validate_on_submit_errors errors :
  errors ≠ [] → validate_on_submit POST errors = false.
Proof. intros Hne. simpl. by apply bool_decide_eq_false. Qed.

(** C3.  In a reachable state, a registration whose user name or e-mail
    address is already stored leaves the stored state (tables and files) and
    the session as they were, shows the form again and flashes "That
    username is taken" or "That email is taken" for the field that
    collides. *)
Theorem register_duplicate_identity st sess f env :
  reachable st →
  is_Some (user_by_username st (RegistrationForm.username f)) ∨
  is_Some (user_by_email st (RegistrationForm.email f)) →
  store (serve st sess (ReqRegister POST f) env) = st ∧
  session (serve st sess (ReqRegister POST f) env) = sess ∧
  response (serve st sess (ReqRegister POST f) env)
  = Render "register.html" NoContext ∧
  (is_Some (user_by_username st (RegistrationForm.username f)) →
   (FieldError "username"
      (Message "That username is taken. Please choose a different one."),
    "danger") ∈ flashes (serve st sess (ReqRegister POST f) env)) ∧
  (is_Some (user_by_email st (RegistrationForm.email f)) →
   (FieldError "email"
      (Message "That email is taken. Please choose a different one."),
    "danger") ∈ flashes (serve st sess (ReqRegister POST f) env)).
Proof.
  intros (Hid & _)%reachable_invariants Hdup.
  assert (is_Some (user_by_username st (RegistrationForm.username f)) →
          ∃ es, (("username", es) ∈ RegistrationForm_errors st f) ∧
                Message "That username is taken. Please choose a different one."
                ∈ es) as Hname.
  { intros [u Hu]. pose proof Hu as [Hin Heq]%user_by_username_found.
    destruct (Hid u Hin) as [Hb _]. rewrite Heq in Hb.
    eexists. split.
    - unfold RegistrationForm_errors. eapply (form_errors_elem _ 3); [done|].
      unfold validate_username. rewrite Hu.
      apply taken_reported; [done|]. intros e'. unfold Length. by case_match.
    - unfold validate_username. rewrite Hu.
      apply taken_reported; [done|]. intros e'. unfold Length. by case_match. }
  assert (is_Some (user_by_email st (RegistrationForm.email f)) →
          ∃ es, (("email", es) ∈ RegistrationForm_errors st f) ∧
                Message "That email is taken. Please choose a different one."
                ∈ es) as Hmail.
  { intros [u Hu]. pose proof Hu as [Hin Heq]%user_by_email_found.
    destruct (Hid u Hin) as [_ Hb]. rewrite Heq in Hb.
    eexists. split.
    - unfold RegistrationForm_errors. eapply (form_errors_elem _ 4); [done|].
      unfold validate_email. rewrite Hu.
      apply taken_reported; [done|]. intros e'. unfold Email_validator.
      by case_match.
    - unfold validate_email. rewrite Hu.
      apply taken_reported; [done|]. intros e'. unfold Email_validator.
      by case_match. }
  assert (RegistrationForm_errors st f ≠ []) as Hne.
  { destruct Hdup as [Hd|Hd];
      [destruct (Hname Hd) as (es & Hin & _)|destruct (Hmail Hd) as (es & Hin & _)];
      intros Hnil; rewrite Hnil in Hin; by apply elem_of_nil in Hin. }
  rewrite register_run_invalid by by apply validate_on_submit_errors.
  simpl. split_and!; try done.
  - intros (es & Hin & He)%Hname. by eapply error_flashes_elem.
  - intros (es & Hin & He)%Hmail. by eapply error_flashes_elem.
Qed.

(** *** Creating a post *)

Lemma create_blog_created st sess m f env :
  response (serve st sess (ReqCreateBlog m f) env)
  = Redirect (url_for "my_posts") None →
  ∃ current_user category st1,
    sess ≫= load_user st = Some current_user ∧
    User.role current_user = "doctor" ∧
    validate_on_submit m (BlogPostForm_errors st f) = true ∧
    BlogPostForm.category f = Some category ∧
    uploaded st env (file_data (BlogPostForm.image f)) blog_image_path = Some st1 ∧
    committed st1 env (PostRow (new_post current_user f category))
    = Some (store (serve st sess (ReqCreateBlog m f) env)).
Proof.
  rewrite create_blog_run.
  destruct (sess ≫= load_user st) as [u|] eqn:Hcu; [|done].
  destruct (bool_decide (User.role u ≠ "doctor")) eqn:Hrole; [done|].
  apply bool_decide_eq_false in Hrole. apply dec_stable in Hrole.
  destruct (validate_on_submit _ _) eqn:Hv; [|done].
  destruct (uploaded _ _ _ _) as [st1|] eqn:Hu; [|done].
  destruct (BlogPostForm.category f) as [c|] eqn:Hcat; [|done].
  destruct (committed _ _ _) as [st2|] eqn:Hc; [|done].
  intros _. by exists u, c, st1.
Qed.

(** C5, as the code has it.  A post that [/blog/create] creates has
    [is_draft] as the "Save as Draft" box of the form says: true when the
    box is ticked, false when the request carries no value for it.  The
    column default (true) is for rows built without [is_draft], and
    [create_blog] always gives one. *)
Theorem create_blog_is_draft st sess m f env :
  response (serve st sess (ReqCreateBlog m f) env)
  = Redirect (url_for "my_posts") None →
  ∃ p, posts (store (serve st sess (ReqCreateBlog m f) env)) = posts st ++ [p] ∧
       BlogPost.is_draft p = boolean_data (BlogPostForm.is_draft f) ∧
       (BlogPostForm.is_draft f = None → BlogPost.is_draft p = false) ∧
       (∀ title image summary content category_id doctor_id,
          BlogPost.is_draft
            (BlogPost_new title image summary content None category_id doctor_id)
          = true).
Proof.
  intros (u & c & st1 & _ & _ & _ & _ & Hu & Hc)%create_blog_created.
  apply uploaded_tables in Hu as (_ & _ & Hu).
  apply committed_post in Hc. rewrite Hc. simpl. rewrite Hu.
  eexists. split; [done|]. simpl. split_and!; [done| |done].
  by intros ->.
Qed.

(** *** Uploads *)

Lemma register_files st sess f env :
  RegistrationForm_errors st f = [] →
  files (store (serve st sess (ReqRegister POST f) env))
  = match file_data (RegistrationForm.profile_picture f) with
    | Some data =>
        if save_ok env then <[profile_path data := stream data]> (files st)
        else files st
    | None => files st
    end.
Proof.
  intros Hv. rewrite register_run by done. unfold uploaded.
  destruct (file_data _) as [data|]; [destruct (save_ok env)|]; simpl; try done;
    destruct (committed _ _ _) as [st2|] eqn:Hc; simpl; try done;
    by apply committed_user in Hc as (_ & _ & ->).
Qed.

Lemma create_blog_files st sess m f env current_user :
  sess ≫= load_user st = Some current_user →
  User.role current_user = "doctor" →
  validate_on_submit m (BlogPostForm_errors st f) = true →
  files (store (serve st sess (ReqCreateBlog m f) env))
  = match file_data (BlogPostForm.image f) with
    | Some data =>
        if save_ok env then <[blog_image_path data := stream data]> (files st)
        else files st
    | None => files st
    end.
Proof.
  intros Hcu Hrole Hv. rewrite create_blog_run, Hcu, Hv.
  rewrite bool_decide_eq_false_2 by (by intros ?).
  unfold uploaded.
  destruct (file_data _) as [data|]; [destruct (save_ok env)|]; simpl; try done;
    destruct (BlogPostForm.category f); simpl; try done;
    destruct (committed _ _ _) as [st2|] eqn:Hc; simpl; try done;
    by apply committed_post in Hc as ->.
Qed.

Lemma committed_fails st env r : commit_ok env = false → committed st env r = None.
Proof. unfold committed. by intros ->. Qed.

(** C6, as the code has it.  When the commit fails, [register] and
    [create_blog] roll the database session back: no row is added to any
    table, the error is flashed and the form is shown again.  The file system
    is not rolled back: an upload saved before the commit stays in the
    upload folder. *)
Theorem failed_commit_keeps_upload st sess env :
  commit_ok env = false →
  (∀ f,
     RegistrationForm_errors st f = [] →
     users (store (serve st sess (ReqRegister POST f) env)) = users st ∧
     categories (store (serve st sess (ReqRegister POST f) env)) = categories st ∧
     posts (store (serve st sess (ReqRegister POST f) env)) = posts st ∧
     flashes (serve st sess (ReqRegister POST f) env)
     = [(Text ("Error creating account: " ++ error_text env)%string, "danger")] ∧
     response (serve st sess (ReqRegister POST f) env)
     = Render "register.html" NoContext ∧
     (∀ data,
        file_data (RegistrationForm.profile_picture f) = Some data →
        save_ok env = true →
        files (store (serve st sess (ReqRegister POST f) env))
        = <[profile_path data := stream data]> (files st))) ∧
  (∀ m f current_user,
     sess ≫= load_user st = Some current_user →
     User.role current_user = "doctor" →
     validate_on_submit m (BlogPostForm_errors st f) = true →
     users (store (serve st sess (ReqCreateBlog m f) env)) = users st ∧
     categories (store (serve st sess (ReqCreateBlog m f) env)) = categories st ∧
     posts (store (serve st sess (ReqCreateBlog m f) env)) = posts st ∧
     flashes (serve st sess (ReqCreateBlog m f) env)
     = [(Text ("Error creating blog post: " ++ error_text env)%string, "danger")] ∧
     response (serve st sess (ReqCreateBlog m f) env)
     = Render "create_blog.html" (Title "Create Post") ∧
     (∀ data,
        file_data (BlogPostForm.image f) = Some data →
        save_ok env = true →
        files (store (serve st sess (ReqCreateBlog m f) env))
        = <[blog_image_path data := stream data]> (files st))).
Proof.
  intros Hfail. split.
  - intros f Hv. split_and!.
    + rewrite register_run by done.
      destruct (uploaded _ _ _ _) as [st1|] eqn:Hup; simpl; [|done].
      rewrite committed_fails by done. simpl.
      by apply uploaded_tables in Hup as (-> & _).
    + apply serve_categories.
    + rewrite register_run by done.
      destruct (uploaded _ _ _ _) as [st1|] eqn:Hup; simpl; [|done].
      rewrite committed_fails by done. simpl.
      by apply uploaded_tables in Hup as (_ & _ & ->).
    + rewrite register_run by done.
      destruct (uploaded _ _ _ _) as [st1|]; simpl; [|done].
      by rewrite committed_fails.
    + rewrite register_run by done.
      destruct (uploaded _ _ _ _) as [st1|]; simpl; [|done].
      by rewrite committed_fails.
    + intros data Hd Hs. rewrite register_files by done. by rewrite Hd, Hs.
  - intros m f u Hcu Hrole Hv.
    assert (serve st sess (ReqCreateBlog m f) env
            = store_failure "Error creating blog post: " "create_blog.html"
                (Title "Create Post")
                (default st (uploaded st env (file_data (BlogPostForm.image f))
                               blog_image_path)) sess env) as Hrun.
    { rewrite create_blog_run, Hcu, Hv.
      rewrite bool_decide_eq_false_2 by (by intros ?).
      destruct (uploaded _ _ _ _) as [st1|]; simpl; [|done].
      destruct (BlogPostForm.category f); [|done].
      by rewrite committed_fails. }
    split_and!.
    + rewrite Hrun. destruct (uploaded _ _ _ _) as [st1|] eqn:Hup; simpl; [|done].
      by apply uploaded_tables in Hup as (-> & _).
    + apply serve_categories.
    + rewrite Hrun. destruct (uploaded _ _ _ _) as [st1|] eqn:Hup; simpl; [|done].
      by apply uploaded_tables in Hup as (_ & _ & ->).
    + by rewrite Hrun.
    + by rewrite Hrun.
    + intros data Hd Hs. rewrite (create_blog_files _ _ _ _ _ u) by done.
      by rewrite Hd, Hs.
Qed.

(** C7, as the code has it.  An upload is written to the upload directory
    under its sanitised name, with no look at what is stored there: after
    the request the file of that name has the new content, whether or not a
    file of that name was stored before, and every other file is as it
    was. *)
Theorem upload_replaces_file st sess env :
  save_ok env = true →
  (∀ f data,
     RegistrationForm_errors st f = [] →
     file_data (RegistrationForm.profile_picture f) = Some data →
     files (store (serve st sess (ReqRegister POST f) env)) !! profile_path data
     = Some (stream data) ∧
     ∀ path, path ≠ profile_path data →
             files (store (serve st sess (ReqRegister POST f) env)) !! path
             = files st !! path) ∧
  (∀ m f data current_user,
     sess ≫= load_user st = Some current_user →
     User.role current_user = "doctor" →
     validate_on_submit m (BlogPostForm_errors st f) = true →
     file_data (BlogPostForm.image f) = Some data →
     files (store (serve st sess (ReqCreateBlog m f) env)) !! blog_image_path data
     = Some (stream data) ∧
     ∀ path, path ≠ blog_image_path data →
             files (store (serve st sess (ReqCreateBlog m f) env)) !! path
             = files st !! path).
Proof.
  intros Hsave. split.
  - intros f data Hv Hd. rewrite register_files by done. rewrite Hd, Hsave.
    split; [apply lookup_insert_eq|]. intros path Hne. by apply lookup_insert_ne.
  - intros m f data u Hcu Hrole Hv Hd.
    rewrite (create_blog_files _ _ _ _ _ u) by done. rewrite Hd, Hsave.
    split; [apply lookup_insert_eq|]. intros path Hne. by apply lookup_insert_ne.
Qed.

(** *** Who sees which post *)

Lemma listPublishedByCategory_elem st c ps :
  (c, ps) ∈ listPublishedByCategory st ↔
  c ∈ categories st ∧
  ps = filter (fun p => BlogPost.category_id p = Category.id c
                        ∧ BlogPost.is_draft p = false) (posts st).
Proof.
  unfold listPublishedByCategory. rewrite list_elem_of_fmap. split.
  - intros (c' & [= -> ->] & Hin). done.
  - intros [Hin ->]. by exists c.
Qed.

(** C2.  In a reachable state every post is in the list [/blog/my_posts]
    shows to the doctor it belongs to; a draft is in no category's list of
    the dictionary [/blog] shows to a patient, and a post that is not a
    draft is in the list of one of its categories. *)
Theorem draft_visibility st p :
  reachable st →
  p ∈ posts st →
  p ∈ listByAuthor st (BlogPost.doctor_id p) ∧
  (∃ doctor,
     load_user st (BlogPost.doctor_id p) = Some doctor ∧
     User.role doctor = "doctor" ∧
     ∀ env,
       response (serve st (Some (BlogPost.doctor_id p)) ReqMyPosts env)
       = Render "my_blog_posts.html"
           (Posts (listByAuthor st (BlogPost.doctor_id p)) "My Posts")) ∧
  (∀ uid patient env,
     load_user st uid = Some patient → User.role patient = "patient" →
     response (serve st (Some uid) ReqBlogHome env)
     = Render "blog_posts.html"
         (CategoryPosts (listPublishedByCategory st) "Health Blog")) ∧
  (BlogPost.is_draft p = true →
   ∀ c ps, (c, ps) ∈ listPublishedByCategory st → p ∉ ps) ∧
  (BlogPost.is_draft p = false →
   ∃ c ps, (c, ps) ∈ listPublishedByCategory st ∧ p ∈ ps).
Proof.
  intros (_ & Hdoc & Hcat & _)%reachable_invariants Hp. split_and!.
  - unfold listByAuthor. by apply list_elem_of_filter.
  - destruct (Hdoc p Hp) as (d & Hd & Hrole). exists d. split_and!; [done..|].
    intros env. rewrite my_posts_run. simpl. rewrite Hd, Hrole. simpl.
    by apply load_user_found in Hd as [_ ->].
  - intros uid u env Hu Hrole. rewrite blog_home_run. simpl.
    by rewrite Hu, Hrole.
  - intros Hdraft c ps [_ ->]%listPublishedByCategory_elem
      [[_ Hpub] _]%list_elem_of_filter.
    congruence.
  - intros Hpub. destruct (Hcat p Hp) as (c & Hc & Hid).
    exists c. eexists. split; [by apply listPublishedByCategory_elem|].
    by apply list_elem_of_filter.
Qed.

Lemma filter_none {A} (P : A → Prop) `{∀ x, Decision (P x)} (l : list A) :
  (∀ x, x ∈ l → ¬ P x) → filter P l = [].
Proof.
  induction l as [|a l IH]; intros Hall; [done|].
  rewrite filter_cons_False by (apply Hall; by left).
  apply IH. intros x Hx. apply Hall. by right.
Qed.

(** C8.  The dictionary [/blog] builds has exactly one key per category
    row, in table order; in a reachable state there is a key for each of the
    four default categories; the list under a key holds exactly the posts of
    that category that are not drafts, and is the empty list when the
    category has none. *)
Theorem listPublishedByCategory_every_category st :
  reachable st →
  (listPublishedByCategory st).*1 = categories st ∧
  (∀ n, n ∈ default_categories →
        ∃ c ps, Category.name c = n ∧ (c, ps) ∈ listPublishedByCategory st) ∧
  (∀ c ps, (c, ps) ∈ listPublishedByCategory st →
           ∀ p, p ∈ ps ↔
                p ∈ posts st ∧ BlogPost.category_id p = Category.id c ∧
                BlogPost.is_draft p = false) ∧
  (∀ c, c ∈ categories st →
        (∀ p, p ∈ posts st → BlogPost.category_id p = Category.id c →
              BlogPost.is_draft p = true) →
        (c, []) ∈ listPublishedByCategory st).
Proof.
  intros (_ & _ & _ & Hseed)%reachable_invariants. split_and!.
  - unfold listPublishedByCategory. rewrite <- list_fmap_compose.
    by rewrite list_fmap_id.
  - intros n Hn. destruct (Hseed n Hn) as (c & Hc & Hname).
    exists c. eexists. split; [done|]. by apply listPublishedByCategory_elem.
  - intros c ps [_ ->]%listPublishedByCategory_elem p.
    rewrite list_elem_of_filter. split.
    + by intros [[? ?] ?].
    + by intros (? & ? & ?).
  - intros c Hc Hdrafts. apply listPublishedByCategory_elem. split; [done|].
    symmetry. apply filter_none. intros p Hp [Hcat Hpub].
    rewrite (Hdrafts p Hp Hcat) in Hpub. done.
Qed.

(** C9.  In every reachable state each post's [doctor_id] is the key of a
    user whose role is doctor.  Every step keeps it so, and keeps every user
    row as it is: the row a key finds, and with it the role, does not change. *)
Theorem posts_belong_to_doctors st :
  reachable st →
  posts_by_doctors st ∧
  (∀ st', step st st' →
          posts_by_doctors st' ∧
          ∀ i u, load_user st i = Some u → load_user st' i = Some u).
Proof.
  intros (_ & Hdoc & _)%reachable_invariants. split; [done|].
  intros st' Hstep. split; [by eapply posts_by_doctors_step|].
  intros i u Hu. destruct (step_users _ _ Hstep) as [l Hl].
  by eapply load_user_grows.
Qed.

(** *** Registering, then logging in *)

Lemma register_registered st sess f env :
  response (serve st sess (ReqRegister POST f) env)
  = Redirect (url_for "login") None →
  RegistrationForm_errors st f = [] ∧
  users (store (serve st sess (ReqRegister POST f) env))
  = users st ++ [with_user_id (next_id (User.id <$> users st)) (new_user f env)].
Proof.
  destruct (validate_on_submit POST (RegistrationForm_errors st f)) eqn:Hv.
  - apply validate_on_submit_true in Hv as [_ Hv]. rewrite register_run by done.
    destruct (uploaded _ _ _ _) as [st1|] eqn:Hu; [|done].
    destruct (committed _ _ _) as [st2|] eqn:Hc; [|done].
    intros _. split; [done|]. simpl.
    apply uploaded_tables in Hu as (Hu & _).
    apply committed_user in Hc as (_ & _ & ->). simpl. by rewrite Hu.
  - by rewrite register_run_invalid.
Qed.

Lemma role_choice_present r : r ∈ role_choices → blank r = false.
Proof.
  unfold role_choices. rewrite !elem_of_cons, elem_of_nil.
  by intros [->|[->|[]]].
Qed.

Lemma login_form_valid username password role :
  blank username = false → blank password = false → role ∈ role_choices →
  LoginForm_errors (LoginForm.mk username password role) = [].
Proof.
  intros Hu Hp Hr. unfold LoginForm_errors, DataRequired, valid_choice. simpl.
  rewrite Hu, Hp, (role_choice_present role Hr).
  by rewrite bool_decide_eq_true_2.
Qed.

(** C10.  A registration that succeeds stores, for the new user, the hash
    werkzeug makes of the password (with the salt drawn), not the password.
    When that hash differs from the password and checks against it, which
    is what werkzeug promises, the stored field differs from the password,
    and from then on, whatever requests and restarts come in between, a
    login with the same user name, password and role succeeds: the session
    is the new user's and the response is the redirect to the dashboard of
    the role (or to [next]). *)
Theorem register_then_login st sess f env :
  response (serve st sess (ReqRegister POST f) env)
  = Redirect (url_for "login") None →
  check_password_hash
    (generate_password_hash (salt env) (RegistrationForm.password f))
    (RegistrationForm.password f) = true →
  generate_password_hash (salt env) (RegistrationForm.password f)
  ≠ RegistrationForm.password f →
  ∃ user,
    user_by_username (store (serve st sess (ReqRegister POST f) env))
      (RegistrationForm.username f) = Some user ∧
    (user ∉ users st) ∧
    User.password user
    = generate_password_hash (salt env) (RegistrationForm.password f) ∧
    User.password user ≠ RegistrationForm.password f ∧
    User.role user = RegistrationForm.role f ∧
    ∀ st' sess' next env',
      rtc step (store (serve st sess (ReqRegister POST f) env)) st' →
      serve st' sess'
        (ReqLogin POST
           (LoginForm.mk (RegistrationForm.username f)
              (RegistrationForm.password f) (RegistrationForm.role f)) next) env'
      = mkResult st' (Some (User.id user)) []
          (Redirect
             (default
                (url_for (if bool_decide (RegistrationForm.role f = "doctor")
                          then "doctors_dashboard" else "patients_dashboard"))
                (match next with
                 | Some url => if bool_decide (url = "") then None else Some url
                 | None => None
                 end)) None).
Proof.
  intros [Hv Husers]%register_registered Hcheck Hne.
  pose proof (registration_valid _ _ Hv) as (Hbu & Hfree & _ & _ & Hbp & Hrole).
  set (user := with_user_id (next_id (User.id <$> users st)) (new_user f env)).
  assert (user_by_username (store (serve st sess (ReqRegister POST f) env))
            (RegistrationForm.username f) = Some user) as Hfound.
  { unfold user_by_username in *. rewrite Husers.
    rewrite find_app_None by done. simpl.
    by rewrite bool_decide_eq_true_2. }
  exists user. split_and!; try done.
  - intros Hin. unfold user_by_username in Hfree.
    apply list_elem_of_In in Hin.
    pose proof (find_none _ _ Hfree user Hin) as Hn. simpl in Hn.
    by rewrite bool_decide_eq_true_2 in Hn.
  - intros st' sess' next env' Hsteps.
    destruct (steps_users _ _ Hsteps) as [l Hl].
    rewrite login_run by by apply login_form_valid. simpl.
    rewrite (user_by_username_grows _ _ _ _ _ Hl Hfound). simpl.
    rewrite Hcheck. by rewrite bool_decide_eq_true_2.
Qed.

(** *** The gates of the role-specific routes *)

Lemma doctors_dashboard_run st sess env :
  serve st sess ReqDoctorsDashboard env
  = match sess ≫= load_user st with
    | None =>
        mkResult st sess [(Text login_message, login_message_category)]
          (Redirect (url_for login_view) (Some "/doctors_dashboard"))
    | Some current_user =>
        if bool_decide (User.role current_user ≠ "doctor")
        then mkResult st sess [] (Abort 403)
        else mkResult st sess []
               (Render "doctors_dashboard.html" (UserContext current_user))
    end.
Proof.
  unfold serve, run, dispatch, doctors_dashboard, login_required, current_user,
    unauthorized. munfold. simpl.
  destruct (sess ≫= load_user st) as [u|]; simpl; [|done].
  by destruct (bool_decide _).
Qed.

Lemma patients_dashboard_run st sess env :
  serve st sess ReqPatientsDashboard env
  = match sess ≫= load_user st with
    | None =>
        mkResult st sess [(Text login_message, login_message_category)]
          (Redirect (url_for login_view) (Some "/patients_dashboard"))
    | Some current_user =>
        if bool_decide (User.role current_user ≠ "patient")
        then mkResult st sess [] (Abort 403)
        else mkResult st sess []
               (Render "patients_dashboard.html" (UserContext current_user))
    end.
Proof.
  unfold serve, run, dispatch, patients_dashboard, login_required, current_user,
    unauthorized. munfold. simpl.
  destruct (sess ≫= load_user st) as [u|]; simpl; [|done].
  by destruct (bool_decide _).
Qed.

Lemma gated_anonymous st sess req env path role :
  gate req = Some (path, role) →
  sess ≫= load_user st = None →
  serve st sess req env
  = mkResult st sess [(Text login_message, "info")]
      (Redirect "/login" (Some path)).
Proof.
  intros Hgate Hanon.
  destruct req; simpl in Hgate; simplify_eq;
    rewrite ?doctors_dashboard_run, ?patients_dashboard_run, ?create_blog_run,
      ?my_posts_run, ?blog_home_run;
    by rewrite Hanon.
Qed.

Lemma gated_wrong_role st sess req env path role user :
  gate req = Some (path, role) →
  sess ≫= load_user st = Some user →
  User.role user ≠ role →
  serve st sess req env = mkResult st sess [] (Abort 403).
Proof.
  intros Hgate Huser Hrole.
  destruct req; simpl in Hgate; simplify_eq;
    rewrite ?doctors_dashboard_run, ?patients_dashboard_run, ?create_blog_run,
      ?my_posts_run, ?blog_home_run;
    rewrite Huser; by rewrite bool_decide_eq_true_2.
Qed.

Lemma gated_right_role st sess req env path role user :
  gate req = Some (path, role) →
  sess ≫= load_user st = Some user →
  User.role user = role →
  response (serve st sess req env) ≠ Abort 403 ∧
  ∀ next, response (serve st sess req env) ≠ Redirect "/login" next.
Proof.
  intros Hgate Huser Hrole.
  destruct req; simpl in Hgate; simplify_eq;
    rewrite ?doctors_dashboard_run, ?patients_dashboard_run, ?create_blog_run,
      ?my_posts_run, ?blog_home_run;
    rewrite Huser; rewrite bool_decide_eq_false_2 by (by intros []); try done.
  destruct (validate_on_submit _ _); [|done].
  destruct (uploaded _ _ _ _); [|done].
  destruct (BlogPostForm.category _); [|done].
  by destruct (committed _ _ _).
Qed.

(** X1.  [/logout] forgets the user, whoever was logged in and also when
    nobody was: the stored state is untouched, the response is the redirect
    to the landing page, a second logout gives the same result, and with the
    cookie it leaves every role-gated route answers with the redirect to the
    login page. *)
Theorem logout_forgets_user st sess env :
  serve st sess ReqLogout env = mkResult st None [] (Redirect "/" None) ∧
  serve (store (serve st sess ReqLogout env))
    (session (serve st sess ReqLogout env)) ReqLogout env
  = serve st sess ReqLogout env ∧
  (∀ req env' path role,
     gate req = Some (path, role) →
     response (serve st (session (serve st sess ReqLogout env)) req env')
     = Redirect "/login" (Some path)).
Proof.
  assert (∀ sess', serve st sess' ReqLogout env
                   = mkResult st None [] (Redirect "/" None)) as Hrun by done.
  split_and!; [apply Hrun|by rewrite !Hrun|].
  intros req env' path role Hgate. rewrite Hrun. simpl.
  by rewrite (gated_anonymous _ _ _ _ _ _ Hgate).
Qed.

(** X2.  A role-gated route asked for without a session, or with a cookie
    whose user id [load_user] does not find, changes nothing, flashes
    Flask-Login's message under [info] and redirects to [/login] with the
    path that was asked for. *)
Theorem gated_route_needs_login st sess req env path role :
  gate req = Some (path, role) →
  sess ≫= load_user st = None →
  serve st sess req env
  = mkResult st sess [(Text "Please log in to access this page.", "info")]
      (Redirect "/login" (Some path)).
Proof. apply gated_anonymous. Qed.

(** X3.  For a logged-in user a role-gated route answers 403 exactly when
    the user's role is not the role of the route; the 403 comes with no
    change of state, no flash and the session kept, and a user with the
    role of the route is never sent to the login page. *)
Theorem gated_route_forbidden_iff st sess req env path role user :
  gate req = Some (path, role) →
  sess ≫= load_user st = Some user →
  (response (serve st sess req env) = Abort 403 ↔ User.role user ≠ role) ∧
  (User.role user ≠ role →
   serve st sess req env = mkResult st sess [] (Abort 403)) ∧
  (User.role user = role →
   ∀ next, response (serve st sess req env) ≠ Redirect "/login" next).
Proof.
  intros Hgate Huser. split_and!.
  - split.
    + intros Hresp Hrole.
      by destruct (gated_right_role _ _ _ env _ _ _ Hgate Huser Hrole).
    + intros Hrole. by rewrite (gated_wrong_role _ _ _ _ _ _ _ Hgate Huser Hrole).
  - intros Hrole. by eapply gated_wrong_role.
  - intros Hrole. by destruct (gated_right_role _ _ _ env _ _ _ Hgate Huser Hrole).
Qed.

(** X4.  The stored state changes only on a POST to [/register] with a form
    that validates, or on a POST to [/blog/create] from a doctor with a form
    that validates; the session changes only on [/logout] or on a POST to
    [/login] with a form that validates, a known user name, a password that
    checks and the user's own role, and is then that user's id. *)
Theorem what_changes_state st sess req env :
  (store (serve st sess req env) ≠ st →
   (∃ f, req = ReqRegister POST f ∧ RegistrationForm_errors st f = []) ∨
   (∃ f user, req = ReqCreateBlog POST f ∧
              sess ≫= load_user st = Some user ∧ User.role user = "doctor" ∧
              BlogPostForm_errors st f = [])) ∧
  (session (serve st sess req env) ≠ sess →
   req = ReqLogout ∨
   ∃ f next_page user,
     req = ReqLogin POST f next_page ∧ LoginForm_errors f = [] ∧
     user_by_username st (LoginForm.username f) = Some user ∧
     check_password_hash (User.password user) (LoginForm.password f) = true ∧
     User.role user = LoginForm.role f ∧
     session (serve st sess req env) = Some (User.id user)).
Proof.
  split.
  - intros Hchange.
    destruct req as [|m f|m f next| | | |m f| |];
      try (by rewrite serve_store_other in Hchange).
    + left. destruct (validate_on_submit m (RegistrationForm_errors st f)) eqn:Hv.
      * apply validate_on_submit_true in Hv as [-> Hv]. by exists f.
      * by rewrite register_run_invalid in Hchange.
    + right. rewrite create_blog_run in Hchange.
      destruct (sess ≫= load_user st) as [u|] eqn:Hu; [|done].
      destruct (bool_decide (User.role u ≠ "doctor")) eqn:Hrole; [done|].
      apply bool_decide_eq_false in Hrole. apply dec_stable in Hrole.
      destruct (validate_on_submit _ _) eqn:Hv; [|done].
      apply validate_on_submit_true in Hv as [-> Hv]. by exists f, u.
  - intros Hchange.
    destruct req as [|m f|m f next| | | |m f| |]; try (by left).
    + destruct (validate_on_submit m (RegistrationForm_errors st f)) eqn:Hv.
      * apply validate_on_submit_true in Hv as [-> Hv].
        rewrite register_run in Hchange by done.
        destruct (uploaded _ _ _ _); [|done]. by destruct (committed _ _ _).
      * by rewrite register_run_invalid in Hchange.
    + right. destruct (validate_on_submit m (LoginForm_errors f)) eqn:Hv.
      * apply validate_on_submit_true in Hv as [-> Hv].
        rewrite login_run in Hchange |- * by done.
        destruct (user_by_username st (LoginForm.username f)) as [u|] eqn:Hu;
          [|done].
        destruct (check_password_hash _ _) eqn:Hpw; [|done].
        destruct (bool_decide (User.role u = LoginForm.role f)) eqn:Hrole;
          [|done].
        apply bool_decide_eq_true in Hrole. by exists f, next, u.
      * exfalso. apply Hchange.
        unfold serve, run, dispatch, login. rewrite Hv. munfold.
        by rewrite flash_form_errors_run.
    + rewrite doctors_dashboard_run in Hchange.
      destruct (sess ≫= load_user st); [by destruct (bool_decide _)|done].
    + rewrite patients_dashboard_run in Hchange.
      destruct (sess ≫= load_user st); [by destruct (bool_decide _)|done].
    + rewrite create_blog_run in Hchange.
      destruct (sess ≫= load_user st); [|done].
      destruct (bool_decide _); [done|].
      destruct (validate_on_submit _ _); [|done].
      destruct (uploaded _ _ _ _); [|done].
      destruct (BlogPostForm.category _); [|done].
      by destruct (committed _ _ _).
    + rewrite my_posts_run in Hchange.
      destruct (sess ≫= load_user st); [by destruct (bool_decide _)|done].
    + rewrite blog_home_run in Hchange.
      destruct (sess ≫= load_user st); [by destruct (bool_decide _)|done].
Qed.

(** *** Keys *)

Lemma next_id_above ids i : i ∈ ids → i < next_id ids.
Proof.
  unfold next_id. induction ids as [|j ids IH]; [by intros ?%elem_of_nil|].
  intros [->|Hin]%elem_of_cons; simpl; [lia|]. specialize (IH Hin). lia.
Qed.

Lemma next_id_fresh ids : next_id ids ∉ ids.
Proof. intros Hin%next_id_above. lia. Qed.

Lemma next_id_positive ids : 0 < next_id ids.
Proof.
  unfold next_id. induction ids as [|j ids IH]; simpl; lia.
Qed.

Lemma NoDup_snoc {A} (l : list A) x : NoDup l → x ∉ l → NoDup (l ++ [x]).
Proof.
  intros Hl Hx. apply NoDup_app. split_and!; [done| |apply NoDup_singleton].
  intros y Hy ->%list_elem_of_singleton. done.
Qed.

Lemma find_None_fresh {A B} `{EqDecision B} (f : A → B) (l : list A) v :
  find (fun y => bool_decide (f y = v)) l = None → v ∉ f <$> l.
Proof.
  intros Hnone (y & -> & Hy)%list_elem_of_fmap.
  apply list_elem_of_In in Hy.
  pose proof (find_none _ _ Hnone y Hy) as Hn. simpl in Hn.
  by rewrite bool_decide_eq_true_2 in Hn.
Qed.

Lemma find_by_key {A B} `{EqDecision B} (f : A → B) (l : list A) x :
  NoDup (f <$> l) → x ∈ l → find (fun y => bool_decide (f y = f x)) l = Some x.
Proof.
  induction l as [|a l IH]; [by intros _ ?%elem_of_nil|].
  rewrite fmap_cons. intros [Ha Hl]%NoDup_cons [->|Hin]%elem_of_cons; simpl.
  - by rewrite bool_decide_eq_true_2.
  - rewrite bool_decide_eq_false_2; [by apply IH|].
    intros Heq. apply Ha. rewrite Heq. by apply list_elem_of_fmap_2.
Qed.

(** *** Stored users *)

Lemma Length_Pass min max data :
  Length min (Some max) data = Pass →
  (min ≤ String.length data ≤ max)%nat.
Proof.
  unfold Length. destruct (_ && _) eqn:Hb; [|done]. intros _.
  apply andb_true_iff in Hb as [?%Nat.leb_le ?%Nat.leb_le]. lia.
Qed.

Lemma registration_fields st f env i :
  RegistrationForm_errors st f = [] →
  user_valid (with_user_id i (new_user f env)).
Proof.
  intros Hv. unfold RegistrationForm_errors in Hv.
  pose proof (form_errors_nil _ 0 _ _ Hv eq_refl) as Hrole.
  pose proof (form_errors_nil _ 1 _ _ Hv eq_refl) as Hfirst.
  pose proof (form_errors_nil _ 2 _ _ Hv eq_refl) as Hlast.
  pose proof (form_errors_nil _ 3 _ _ Hv eq_refl) as Hname.
  pose proof (form_errors_nil _ 4 _ _ Hv eq_refl) as Hmail.
  pose proof (form_errors_nil _ 7 _ _ Hv eq_refl) as Haddress.
  pose proof (form_errors_nil _ 8 _ _ Hv eq_refl) as Hcity.
  pose proof (form_errors_nil _ 9 _ _ Hv eq_refl) as Hstate.
  pose proof (form_errors_nil _ 10 _ _ Hv eq_refl) as Hpin.
  apply run_chain_nil in Hrole as [Hrole _].
  apply run_chain_nil in Hfirst as [_ [Hfirst _]%run_chain_nil].
  apply run_chain_nil in Hlast as [_ [Hlast _]%run_chain_nil].
  apply run_chain_nil in Hname as [_ [Hname _]%run_chain_nil].
  apply run_chain_nil in Hmail as [_ [Hmail _]%run_chain_nil].
  apply run_chain_nil in Haddress as [Haddress _].
  apply run_chain_nil in Hcity as [Hcity _].
  apply run_chain_nil in Hstate as [_ [Hstate _]%run_chain_nil].
  apply run_chain_nil in Hpin as [_ [Hpin _]%run_chain_nil].
  apply Length_Pass in Hfirst, Hlast, Hname, Hstate, Hpin.
  unfold Email_validator in Hmail.
  unfold user_valid. simpl. split_and!; try lia.
  - by apply valid_choice_Pass.
  - by destruct (Email _).
  - by apply DataRequired_Pass.
  - by apply DataRequired_Pass.
Qed.

Lemma users_distinct_step st st' :
  step st st' → users_distinct st → users_distinct st'.
Proof.
  intros [st0 sess req env|st0 env st1 Hinit] (Hid & Hname & Hmail).
  - destruct (serve_users st0 sess req env) as [Hu|(f & _ & Hv & Hu)];
      unfold users_distinct; rewrite Hu; [done|].
    apply registration_valid in Hv as (_ & Hfree & _ & Hfree' & _).
    rewrite !fmap_app. simpl.
    split_and!; apply NoDup_snoc; try done.
    + apply next_id_fresh.
    + by apply find_None_fresh.
    + by apply find_None_fresh.
  - apply initialize_database_spec in Hinit as (Hu & _).
    unfold users_distinct. by rewrite Hu.
Qed.

Lemma users_valid_step st st' :
  step st st' →
  (∀ u, u ∈ users st → user_valid u ∧ 0 < User.id u) →
  ∀ u, u ∈ users st' → user_valid u ∧ 0 < User.id u.
Proof.
  intros [st0 sess req env|st0 env st1 Hinit] Hinv.
  - destruct (serve_users st0 sess req env) as [Hu|(f & _ & Hv & Hu)];
      rewrite Hu; [done|].
    intros u [Hin | ->]%elem_of_app_singleton; [by apply Hinv|].
    split; [by eapply registration_fields|apply next_id_positive].
  - apply initialize_database_spec in Hinit as (Hu & _). by rewrite Hu.
Qed.

Lemma reachable_users st :
  reachable st →
  users_distinct st ∧ ∀ u, u ∈ users st → user_valid u ∧ 0 < User.id u.
Proof.
  intros (env & st0 & Hinit & Hsteps).
  assert (users_distinct st0 ∧
          ∀ u, u ∈ users st0 → user_valid u ∧ 0 < User.id u) as Hinv0.
  { apply initialize_database_spec in Hinit as (Hu & _). simpl in Hu.
    unfold users_distinct. rewrite Hu. simpl.
    split; [split_and!; constructor|]. by intros u ?%elem_of_nil. }
  clear Hinit. induction Hsteps as [st0|st0 st1 st2 Hstep _ IH]; [done|].
  apply IH. destruct Hinv0.
  split; [by eapply users_distinct_step|by eapply users_valid_step].
Qed.

(** X5.  In every reachable state the key, the user name and the e-mail
    address each identify one user row: looking a stored user up by any of
    the three ([load_user], the queries of [login] and of the two
    [validate_] methods) gives back that very row, and two rows that agree
    on one of them are the same row. *)
Theorem stored_user_found_by_key st u :
  reachable st →
  u ∈ users st →
  load_user st (User.id u) = Some u ∧
  user_by_username st (User.username u) = Some u ∧
  user_by_email st (User.email u) = Some u ∧
  ∀ v, v ∈ users st →
       User.id v = User.id u ∨ User.username v = User.username u ∨
       User.email v = User.email u →
       v = u.
Proof.
  intros [(Hid & Hname & Hmail) _]%reachable_users Hin.
  assert (load_user st (User.id u) = Some u) as Hl
    by by apply (find_by_key User.id).
  assert (user_by_username st (User.username u) = Some u) as Hn
    by by apply (find_by_key User.username).
  assert (user_by_email st (User.email u) = Some u) as He
    by by apply (find_by_key User.email).
  split_and!; try done.
  intros v Hv [Heq|[Heq|Heq]].
  - pose proof (find_by_key User.id _ v Hid Hv) as Hfound.
    rewrite Heq in Hfound. unfold load_user in Hl. congruence.
  - pose proof (find_by_key User.username _ v Hname Hv) as Hfound.
    rewrite Heq in Hfound. unfold user_by_username in Hn. congruence.
  - pose proof (find_by_key User.email _ v Hmail Hv) as Hfound.
    rewrite Heq in Hfound. unfold user_by_email in He. congruence.
Qed.


(** *** The category table *)


Lemma pending_names_unknown (ns : list string) n :
  existsb (fun r => match r with
                    | CategoryRow c => bool_decide (Category.name c = n)
                    | _ => false
                    end)
    ((fun n => CategoryRow (Category.mk 0 n)) <$> ns) = false →
  n ∉ ns.
Proof.
  induction ns as [|m ns IH]; simpl; [by intros _ ?%elem_of_nil|].
  intros [Hm Hns]%orb_false_iff [->|Hin]%elem_of_cons.
  - by rewrite bool_decide_eq_true_2 in Hm.
  - by apply IH.
Qed.

(** The loop of [initialize_database]: the names it adds to the session
    are new to the table and to the session. *)
Lemma default_categories_loop_fresh names w ns :
  pending w = (fun n => CategoryRow (Category.mk 0 n)) <$> ns →
  NoDup ns →
  (∀ n, n ∈ ns → category_by_name (db w) n = None) →
  ∃ ns',
    for_each names (fun cat_name =>
      bind (category_known cat_name) (fun known : bool =>
        if known then ret tt
        else session_add (CategoryRow (Category.mk 0 cat_name)))) w
    = (mkWorld (db w) ((fun n => CategoryRow (Category.mk 0 n)) <$> ns')
         (cookie w) (flashed w), inr tt) ∧
    NoDup ns' ∧
    (∀ n, n ∈ ns' → category_by_name (db w) n = None) ∧
    ((∀ n, n ∈ names → is_Some (category_by_name (db w) n)) → ns' = ns).
Proof.
  revert w ns. induction names as [|n names IH]; intros w ns Hpend Hnodup Hnew.
  - exists ns. simpl. unfold ret. rewrite <- Hpend. by destruct w.
  - simpl. unfold bind at 1 2. unfold category_known at 1.
    destruct (bool_decide (is_Some (category_by_name (db w) n))) eqn:Hdb; simpl.
    { destruct (IH w ns Hpend Hnodup Hnew) as (ns' & Heq & ? & ? & Hsame).
      unfold ret at 1. simpl. exists ns'. split_and!; try done.
      intros Hknown. apply Hsame. intros m Hm. apply Hknown. by right. }
    apply bool_decide_eq_false in Hdb.
    assert (category_by_name (db w) n = None) as Hnone.
    { destruct (category_by_name (db w) n) eqn:Hc; [|done].
      destruct Hdb. by eexists. }
    destruct (existsb _ (pending w)) eqn:Hex; simpl.
    { destruct (IH w ns Hpend Hnodup Hnew) as (ns' & Heq & ? & ? & Hsame).
      unfold ret at 1. simpl. exists ns'. split_and!; try done.
      intros Hknown. destruct Hdb. apply Hknown. by left. }
    rewrite Hpend in Hex. apply pending_names_unknown in Hex.
    unfold session_add at 1. simpl.
    destruct (IH (mkWorld (db w)
                    (pending w ++ [CategoryRow (Category.mk 0 n)])
                    (cookie w) (flashed w)) (ns ++ [n]))
      as (ns' & Heq & ? & ? & Hsame); simpl.
    + by rewrite Hpend, fmap_app.
    + by apply NoDup_snoc.
    + intros m [Hm | ->]%elem_of_app_singleton; [by apply Hnew|done].
    + exists ns'. simpl in Heq. split_and!; try done.
      intros Hknown. destruct Hdb. apply Hknown. by left.
Qed.


Lemma initialize_database_run env st :
  ∃ ns,
    NoDup ns ∧ (∀ n, n ∈ ns → category_by_name st n = None) ∧
    ((∀ n, n ∈ default_categories → is_Some (category_by_name st n)) → ns = []) ∧
    initialize_database env st
    = if commit_ok env
      then insert_rows st ((fun n => CategoryRow (Category.mk 0 n)) <$> ns)
      else None.
Proof.
  destruct (default_categories_loop_fresh default_categories
              (mkWorld st [] None []) []) as (ns & Heq & Hnodup & Hnew & Hsame);
    [done|constructor|by intros n ?%elem_of_nil|].
  exists ns. split_and!; try done.
  unfold initialize_database, initialize_database_try. unfold bind at 1.
  rewrite Heq. simpl. unfold session_commit. simpl.
  destruct (commit_ok env); [|done].
  by destruct (insert_rows _ _).
Qed.

Lemma initialize_database_seeded env st :
  seeded st →
  initialize_database env st = if commit_ok env then Some st else None.
Proof.
  intros Hseed.
  destruct (initialize_database_run env st) as (ns & _ & _ & Hsame & ->).
  rewrite Hsame; [done|].
  intros n Hn. destruct (Hseed n Hn) as (c & Hc & Hname).
  apply (find_is_Some _ _ c); [done|]. by apply bool_decide_eq_true.
Qed.

Lemma initialize_database_empty env st :
  initialize_database env empty_store = Some st →
  st = mkStore [] seed_table [] ∅.
Proof.
  destruct env as [s b1 b2 e]. destruct b2; vm_compute; [|done].
  by intros [= <-].
Qed.

Lemma seed_table_seeded st : categories st = seed_table → seeded st.
Proof.
  intros Hcat n Hn. rewrite Hcat. unfold default_categories in Hn.
  rewrite !elem_of_cons, elem_of_nil in Hn.
  destruct Hn as [->|[->|[->|[->|[]]]]].
  - exists (Category.mk 1 "Mental Health").
    split; [by apply (list_elem_of_lookup_2 _ 0%nat)|done].
  - exists (Category.mk 2 "Heart Disease").
    split; [by apply (list_elem_of_lookup_2 _ 1%nat)|done].
  - exists (Category.mk 3 "Covid19").
    split; [by apply (list_elem_of_lookup_2 _ 2%nat)|done].
  - exists (Category.mk 4 "Immunization").
    split; [by apply (list_elem_of_lookup_2 _ 3%nat)|done].
Qed.

Lemma seed_table_step st st' :
  step st st' → categories st = seed_table → categories st' = seed_table.
Proof.
  intros [st0 sess req env|st0 env st1 Hinit] Hcat.
  - by rewrite serve_categories.
  - rewrite initialize_database_seeded in Hinit by by apply seed_table_seeded.
    destruct (commit_ok env); by simplify_eq.
Qed.

Lemma reachable_categories st : reachable st → categories st = seed_table.
Proof.
  intros (env & st0 & Hinit & Hsteps).
  assert (categories st0 = seed_table) as Hinv
    by by apply initialize_database_empty in Hinit as ->.
  clear Hinit.
  induction Hsteps as [st0|st0 st1 st2 Hstep _ IH]; [done|].
  apply IH. by eapply seed_table_step.
Qed.


(** X8.  In every reachable state the category table is the four default
    categories with the keys 1 to 4, in the order of the list in
    [initialize_database]: no request adds, changes or removes a category,
    and starting the application again leaves the whole stored state as it
    is. *)
Theorem categories_are_the_defaults st :
  reachable st →
  categories st = seed_table ∧
  (∀ sess req env, categories (store (serve st sess req env)) = seed_table) ∧
  (∀ env st', initialize_database env st = Some st' → st' = st).
Proof.
  intros Hreach. pose proof (reachable_categories _ Hreach) as Hcat.
  split_and!; [done| |].
  - intros sess req env. by rewrite serve_categories.
  - intros env st'. rewrite initialize_database_seeded.
    + destruct (commit_ok env); [|done]. by intros [= <-].
    + by apply reachable_invariants in Hreach as (_ & _ & _ & ?).
Qed.

(** *** Stored posts *)

Lemma blog_post_fields st f user category i :
  BlogPostForm_errors st f = [] →
  post_valid (with_post_id i (new_post user f category)).
Proof.
  intros Hv. unfold BlogPostForm_errors in Hv.
  pose proof (form_errors_nil _ 0 _ _ Hv eq_refl) as Htitle.
  pose proof (form_errors_nil _ 3 _ _ Hv eq_refl) as Hsummary.
  pose proof (form_errors_nil _ 4 _ _ Hv eq_refl) as Hcontent.
  apply run_chain_nil in Htitle as [Hbt [Htitle _]%run_chain_nil].
  apply run_chain_nil in Hsummary as [Hbs [Hsummary _]%run_chain_nil].
  apply run_chain_nil in Hcontent as [Hbc _].
  apply Length_Pass in Htitle, Hsummary.
  unfold post_valid. simpl. split_and!; try lia; by apply DataRequired_Pass.
Qed.

Lemma posts_valid_step st st' :
  step st st' →
  NoDup (BlogPost.id <$> posts st) ∧ (∀ p, p ∈ posts st → post_valid p) →
  NoDup (BlogPost.id <$> posts st') ∧ (∀ p, p ∈ posts st' → post_valid p).
Proof.
  intros [st0 sess req env|st0 env st1 Hinit] [Hid Hvalid].
  - destruct (serve_posts st0 sess req env)
      as [Hp|(m & f & u & c & _ & _ & _ & Hv & _ & _ & Hp)]; rewrite Hp; [done|].
    apply validate_on_submit_true in Hv as [_ Hv]. split.
    + rewrite fmap_app. simpl. apply NoDup_snoc; [done|apply next_id_fresh].
    + intros p [Hin | ->]%elem_of_app_singleton; [by apply Hvalid|].
      by eapply blog_post_fields.
  - apply initialize_database_spec in Hinit as (_ & Hp & _). by rewrite Hp.
Qed.

Lemma reachable_posts st :
  reachable st →
  NoDup (BlogPost.id <$> posts st) ∧ (∀ p, p ∈ posts st → post_valid p).
Proof.
  intros (env & st0 & Hinit & Hsteps).
  assert (NoDup (BlogPost.id <$> posts st0) ∧
          (∀ p, p ∈ posts st0 → post_valid p)) as Hinv0.
  { apply initialize_database_spec in Hinit as (_ & Hp & _). simpl in Hp.
    rewrite Hp. split; [constructor|]. by intros p ?%elem_of_nil. }
  clear Hinit. induction Hsteps as [st0|st0 st1 st2 Hstep _ IH]; [done|].
  apply IH. by eapply posts_valid_step.
Qed.


(** *** Who is shown a post *)


Lemma NoDup_app_disjoint {A} (l k : list A) :
  NoDup l → NoDup k → (∀ x, x ∈ l → x ∉ k) → NoDup (l ++ k).
Proof. intros Hl Hk Hd. apply NoDup_app. by split_and!. Qed.

Lemma filter_by_key_disjoint (l : list BlogPost.t) (i j : Z) p :
  i ≠ j →
  p ∈ filter (fun p => BlogPost.category_id p = i ∧ BlogPost.is_draft p = false) l →
  p ∉ filter (fun p => BlogPost.category_id p = j ∧ BlogPost.is_draft p = false) l.
Proof.
  intros Hne [[Hi _] _]%list_elem_of_filter [[Hj _] _]%list_elem_of_filter.
  congruence.
Qed.

(** X11.  In every reachable state the page [/blog] builds for a patient
    lists every published post once: the lists under the categories have no
    post twice and share no post, and a post is in them exactly when it is
    stored and is not a draft. *)
Theorem published_posts_listed_once st :
  reachable st →
  NoDup (listPublishedByCategory st ≫= snd) ∧
  (∀ p, p ∈ listPublishedByCategory st ≫= snd ↔
        p ∈ posts st ∧ BlogPost.is_draft p = false) ∧
  (∀ uid patient env,
     load_user st uid = Some patient → User.role patient = "patient" →
     shown (response (serve st (Some uid) ReqBlogHome env))
     = listPublishedByCategory st ≫= snd).
Proof.
  intros Hreach.
  pose proof (reachable_posts _ Hreach) as [Hid _].
  pose proof (reachable_invariants _ Hreach) as (_ & _ & Hcat & _).
  pose proof (reachable_categories _ Hreach) as Htable.
  apply NoDup_fmap_1 in Hid.
  split_and!.
  - unfold listPublishedByCategory. rewrite Htable. simpl.
    rewrite app_nil_r.
    apply NoDup_app_disjoint; [by apply NoDup_filter| |];
      [apply NoDup_app_disjoint; [by apply NoDup_filter| |];
         [apply NoDup_app_disjoint;
            [by apply NoDup_filter|by apply NoDup_filter|]|]|];
      intros p Hp; rewrite ?elem_of_app; intros Hq;
      repeat match type of Hq with _ ∨ _ => destruct Hq as [Hq|Hq] end;
      by (eapply filter_by_key_disjoint; [|exact Hp|exact Hq]).
  - intros p. rewrite list_elem_of_bind. split.
    + intros ([c ps] & Hp & [_ ->]%listPublishedByCategory_elem). simpl in Hp.
      by apply list_elem_of_filter in Hp as [[_ ?] ?].
    + intros [Hp Hpub]. destruct (Hcat p Hp) as (c & Hc & Hcid).
      eexists (c, _). split; [|by apply listPublishedByCategory_elem].
      simpl. by apply list_elem_of_filter.
  - intros uid u env Hu Hrole. rewrite blog_home_run. simpl.
    by rewrite Hu, Hrole.
Qed.

(** *** Logging in, then asking for a page *)

(** X12.  In a reachable state a login that succeeds sets the session to
    the user's key, changes nothing stored and flashes nothing; it
    redirects to [next] when the request has a non-empty one and to the
    dashboard of the user's role otherwise.  With that session, in every
    later state, the dashboard of the role renders for that same user, and
    every route gated for the other role answers 403. *)
Theorem login_opens_own_dashboard st sess f next env user :
  reachable st →
  LoginForm_errors f = [] →
  user_by_username st (LoginForm.username f) = Some user →
  check_password_hash (User.password user) (LoginForm.password f) = true →
  User.role user = LoginForm.role f →
  store (serve st sess (ReqLogin POST f next) env) = st ∧
  session (serve st sess (ReqLogin POST f next) env) = Some (User.id user) ∧
  flashes (serve st sess (ReqLogin POST f next) env) = [] ∧
  (next = None ∨ next = Some "" →
   ∃ path, gate (dashboard (User.role user)) = Some (path, User.role user) ∧
           response (serve st sess (ReqLogin POST f next) env)
           = Redirect path None) ∧
  (∀ url, next = Some url → url ≠ "" →
          response (serve st sess (ReqLogin POST f next) env)
          = Redirect url None) ∧
  ∀ st' env',
    rtc step st st' →
    response (serve st' (Some (User.id user)) (dashboard (User.role user)) env')
    = Render (if bool_decide (User.role user = "doctor")
              then "doctors_dashboard.html" else "patients_dashboard.html")
        (UserContext user) ∧
    ∀ req path role,
      gate req = Some (path, role) → role ≠ User.role user →
      response (serve st' (Some (User.id user)) req env') = Abort 403.
Proof.
  intros Hreach Hv Hfound Hpw Hrole.
  pose proof (login_valid _ Hv) as (_ & _ & Hchoice).
  rewrite <- Hrole in Hchoice.
  pose proof (reachable_users _ Hreach) as [(Hid & _ & _) _].
  pose proof (user_by_username_found _ _ _ Hfound) as [Hin _].
  assert (load_user st (User.id user) = Some user) as Hload
    by by apply (find_by_key User.id).
  rewrite login_run by done. rewrite Hfound, Hpw. simpl.
  rewrite bool_decide_eq_true_2 by done.
  unfold role_choices in Hchoice.
  rewrite !elem_of_cons, elem_of_nil in Hchoice.
  split_and!; try done.
  - intros Hnext.
    assert (match next with
            | Some url => if bool_decide (url = "") then None else Some url
            | None => None
            end = None) as -> by (by destruct Hnext as [-> | ->]).
    destruct Hchoice as [Hr|[Hr|[]]]; rewrite Hr; simpl; by eexists.
  - intros url -> Hurl. simpl.
    by rewrite (bool_decide_eq_false_2 (url = "")).
  - intros st' env' Hsteps. destruct (steps_users _ _ Hsteps) as [l Hl].
    pose proof (load_user_grows _ _ _ _ _ Hl Hload) as Hload'.
    split.
    + destruct Hchoice as [Hr|[Hr|[]]]; rewrite Hr; simpl.
      * rewrite doctors_dashboard_run. simpl. by rewrite Hload', Hr.
      * rewrite patients_dashboard_run. simpl. by rewrite Hload', Hr.
    + intros req path role Hgate Hne.
      by rewrite (gated_wrong_role _ _ _ _ _ _ user Hgate).
Qed.

(** *** What the registration form rejects *)


(** *** What the forms reject *)

Lemma register_invalid_result st sess f env :
  RegistrationForm_errors st f ≠ [] →
  serve st sess (ReqRegister POST f) env
  = mkResult st sess (error_flashes (RegistrationForm_errors st f))
      (Render "register.html" NoContext).
Proof.
  intros Hne. by rewrite register_run_invalid by by apply validate_on_submit_errors.
Qed.

Lemma register_field_error st sess f env field es e :
  (field, es) ∈ RegistrationForm_errors st f →
  e ∈ es →
  store (serve st sess (ReqRegister POST f) env) = st ∧
  session (serve st sess (ReqRegister POST f) env) = sess ∧
  response (serve st sess (ReqRegister POST f) env)
  = Render "register.html" NoContext ∧
  (FieldError field e, "danger")
  ∈ flashes (serve st sess (ReqRegister POST f) env).
Proof.
  intros Hin He. rewrite register_invalid_result.
  - simpl. split_and!; try done. by eapply error_flashes_elem.
  - intros Hnil. rewrite Hnil in Hin. by apply elem_of_nil in Hin.
Qed.


(** X14.  A registration that uploads a profile picture whose name, in
    lower case, ends neither in [.jpg] nor in [.png] creates nothing and
    writes no file: the stored state is as before, the form is shown again
    and the extension error is flashed for [profile_picture]. *)
Theorem register_checks_picture_extension st sess f env data :
  file_data (RegistrationForm.profile_picture f) = Some data →
  endswith (lower (filename data)) ".jpg" = false →
  endswith (lower (filename data)) ".png" = false →
  store (serve st sess (ReqRegister POST f) env) = st ∧
  session (serve st sess (ReqRegister POST f) env) = sess ∧
  response (serve st sess (ReqRegister POST f) env)
  = Render "register.html" NoContext ∧
  (FieldError "profile_picture" FileNotAllowed, "danger")
  ∈ flashes (serve st sess (ReqRegister POST f) env).
Proof.
  intros Hdata Hjpg Hpng.
  assert (run_chain [FileAllowed ["jpg"; "png"]
                       (file_data (RegistrationForm.profile_picture f))]
          = [FileNotAllowed]) as Hes.
  { rewrite Hdata. unfold FileAllowed. cbn [existsb].
    change ("." ++ "jpg")%string with ".jpg".
    change ("." ++ "png")%string with ".png".
    by rewrite Hjpg, Hpng. }
  eapply register_field_error; [|by apply list_elem_of_singleton].
  unfold RegistrationForm_errors. eapply (form_errors_elem _ 11); [|done].
  by rewrite <- Hes.
Qed.

(** X15.  A post whose image has a name that, in lower case, ends in none
    of [.jpg], [.png], [.jpeg] is not created and its image is not saved,
    whoever asks: the stored state is as before, and a doctor is shown the
    form again, with nothing flashed. *)
Theorem create_blog_checks_image_extension st sess f env data :
  file_data (BlogPostForm.image f) = Some data →
  endswith (lower (filename data)) ".jpg" = false →
  endswith (lower (filename data)) ".png" = false →
  endswith (lower (filename data)) ".jpeg" = false →
  store (serve st sess (ReqCreateBlog POST f) env) = st ∧
  session (serve st sess (ReqCreateBlog POST f) env) = sess ∧
  (∀ user,
     sess ≫= load_user st = Some user → User.role user = "doctor" →
     serve st sess (ReqCreateBlog POST f) env
     = mkResult st sess [] (Render "create_blog.html" (Title "Create Post"))).
Proof.
  intros Hdata Hjpg Hpng Hjpeg.
  assert (validate_on_submit POST (BlogPostForm_errors st f) = false) as Hv.
  { apply validate_on_submit_errors. intros Hnil.
    unfold BlogPostForm_errors in Hnil.
    pose proof (form_errors_nil _ 1 _ _ Hnil eq_refl) as Himage.
    rewrite Hdata in Himage. unfold FileAllowed in Himage.
    cbn [existsb] in Himage.
    change ("." ++ "jpg")%string with ".jpg" in Himage.
    change ("." ++ "png")%string with ".png" in Himage.
    change ("." ++ "jpeg")%string with ".jpeg" in Himage.
    by rewrite Hjpg, Hpng, Hjpeg in Himage. }
  rewrite create_blog_run, Hv.
  split_and!.
  - destruct (sess ≫= load_user st); [by destruct (bool_decide _)|done].
  - destruct (sess ≫= load_user st); [by destruct (bool_decide _)|done].
  - intros user -> Hrole. by rewrite bool_decide_eq_false_2 by (by intros ?).
Qed.

(** *** Where an upload ends up *)

(** X16.  A registration that succeeds adds one user row, with a key no
    row had.  With a picture, the row's [profile_picture] is
    [profile_pics/] followed by the sanitised name, the file of that name
    in the [profile_pics] directory of the upload folder has the uploaded
    content, and the name was one the form allows; without one, the field
    is empty and the files are as before. *)
Theorem registered_picture_stored st sess f env :
  response (serve st sess (ReqRegister POST f) env)
  = Redirect (url_for "login") None →
  ∃ user,
    users (store (serve st sess (ReqRegister POST f) env)) = users st ++ [user] ∧
    (User.id user ∉ User.id <$> users st) ∧
    match file_data (RegistrationForm.profile_picture f) with
    | Some data =>
        User.profile_picture user
        = Some ("profile_pics/" ++ secure_filename (filename data))%string ∧
        files (store (serve st sess (ReqRegister POST f) env))
          !! path_join (path_join UPLOAD_FOLDER "profile_pics")
               (secure_filename (filename data))
        = Some (stream data) ∧
        (endswith (lower (filename data)) ".jpg" = true ∨
         endswith (lower (filename data)) ".png" = true)
    | None =>
        User.profile_picture user = None ∧
        files (store (serve st sess (ReqRegister POST f) env)) = files st
    end.
Proof.
  intros Hok. pose proof (register_registered _ _ _ _ Hok) as [Hv Husers].
  eexists. split; [exact Husers|]. split; [apply next_id_fresh|].
  pose proof (register_files st sess f env Hv) as Hfiles.
  rewrite register_run in Hok by done. unfold uploaded in Hok.
  unfold RegistrationForm_errors in Hv.
  pose proof (form_errors_nil _ 11 _ _ Hv eq_refl) as Hallowed.
  destruct (file_data (RegistrationForm.profile_picture f)) as [data|] eqn:Hd;
    simpl; rewrite Hd; simpl.
  - destruct (save_ok env); [|done]. rewrite Hfiles.
    split_and!; [done|apply lookup_insert_eq|].
    unfold FileAllowed in Hallowed. cbn [existsb] in Hallowed.
    change ("." ++ "jpg")%string with ".jpg" in Hallowed.
    change ("." ++ "png")%string with ".png" in Hallowed.
    destruct (endswith (lower (filename data)) ".jpg"); [by left|].
    destruct (endswith (lower (filename data)) ".png"); [by right|done].
  - by rewrite Hfiles.
Qed.

(** X17.  A post creation that succeeds adds one post row, with a key no
    post had, for the logged-in doctor and the category chosen in the form.
    With an image, the row's [image] is [blog_images/] followed by the
    sanitised name and the file of that name in the [blog_images] directory
    of the upload folder has the uploaded content; without one, the field
    is empty and the files are as before.  Users and categories are
    untouched. *)
Theorem created_post_stored st sess m f env :
  response (serve st sess (ReqCreateBlog m f) env)
  = Redirect (url_for "my_posts") None →
  ∃ doctor p,
    sess ≫= load_user st = Some doctor ∧ User.role doctor = "doctor" ∧
    posts (store (serve st sess (ReqCreateBlog m f) env)) = posts st ++ [p] ∧
    users (store (serve st sess (ReqCreateBlog m f) env)) = users st ∧
    categories (store (serve st sess (ReqCreateBlog m f) env)) = categories st ∧
    (BlogPost.id p ∉ BlogPost.id <$> posts st) ∧
    BlogPost.doctor_id p = User.id doctor ∧
    BlogPostForm.category f = Some (BlogPost.category_id p) ∧
    BlogPost.title p = BlogPostForm.title f ∧
    BlogPost.summary p = BlogPostForm.summary f ∧
    BlogPost.content p = BlogPostForm.content f ∧
    match file_data (BlogPostForm.image f) with
    | Some data =>
        BlogPost.image p
        = Some ("blog_images/" ++ secure_filename (filename data))%string ∧
        files (store (serve st sess (ReqCreateBlog m f) env))
          !! path_join (path_join UPLOAD_FOLDER "blog_images")
               (secure_filename (filename data))
        = Some (stream data)
    | None =>
        BlogPost.image p = None ∧
        files (store (serve st sess (ReqCreateBlog m f) env)) = files st
    end.
Proof.
  intros Hok.
  pose proof (create_blog_created _ _ _ _ _ Hok)
    as (u & c & st1 & Hu & Hrole & Hv & Hcat & Hup & Hc).
  pose proof (create_blog_files st sess m f env u Hu Hrole Hv) as Hfiles.
  apply committed_post in Hc. rewrite Hc in Hfiles |- *. simpl in *.
  pose proof (uploaded_tables _ _ _ _ _ Hup) as (Hus & Hcs & Hps).
  rewrite Hus, Hcs, Hps.
  exists u. eexists. split_and!; try done; [apply next_id_fresh|].
  simpl. unfold uploaded in Hup.
  destruct (file_data (BlogPostForm.image f)) as [data|] eqn:Hd; simpl.
  - destruct (save_ok env); [|done]. rewrite Hfiles.
    split; [done|apply lookup_insert_eq].
  - by rewrite Hfiles.
Qed.

(** *** A login form that does not validate *)



(** *** A new post in the lists *)

(** X19.  After a post creation that succeeds, the new post is the last of
    its author's list on [/blog/my_posts], which is otherwise as before;
    the lists of all other doctors are as before; and the dictionary of
    [/blog] is as before when the post is a draft. *)
Theorem created_post_listed st sess m f env :
  response (serve st sess (ReqCreateBlog m f) env)
  = Redirect (url_for "my_posts") None →
  ∃ doctor p,
    sess ≫= load_user st = Some doctor ∧
    posts (store (serve st sess (ReqCreateBlog m f) env)) = posts st ++ [p] ∧
    listByAuthor (store (serve st sess (ReqCreateBlog m f) env)) (User.id doctor)
    = listByAuthor st (User.id doctor) ++ [p] ∧
    (∀ other, other ≠ User.id doctor →
              listByAuthor (store (serve st sess (ReqCreateBlog m f) env)) other
              = listByAuthor st other) ∧
    (boolean_data (BlogPostForm.is_draft f) = true →
     listPublishedByCategory (store (serve st sess (ReqCreateBlog m f) env))
     = listPublishedByCategory st).
Proof.
  intros Hok.
  pose proof (create_blog_created _ _ _ _ _ Hok)
    as (u & c & st1 & Hu & _ & _ & _ & Hup & Hc).
  apply committed_post in Hc. rewrite Hc.
  pose proof (uploaded_tables _ _ _ _ _ Hup) as (_ & Hcs & Hps).
  exists u. eexists. unfold listByAuthor, listPublishedByCategory. simpl.
  rewrite Hps, Hcs. split_and!; [done|done| | |].
  - rewrite filter_app. f_equal. by rewrite filter_cons_True.
  - intros other Hne. rewrite filter_app, filter_cons_False by by simpl.
    by rewrite filter_nil, app_nil_r.
  - intros Hdraft. apply list_fmap_ext. intros _ category _. f_equal.
    rewrite filter_app, filter_cons_False; [by rewrite filter_nil, app_nil_r|].
    simpl. rewrite Hdraft. by intros [_ ?].
Qed.

End Properties.

(** ** The sample deployment, evaluated *)

Example sample_tables :
  users Sample.two_posts = [Sample.alice_row; Sample.pat_row] ∧
  Category.name <$> categories Sample.two_posts
  = ["Mental Health"; "Heart Disease"; "Covid19"; "Immunization"] ∧
  posts Sample.two_posts = [Sample.flu_row; Sample.heart_row].
Proof. vm_compute. done. Qed.

Lemma sample_started : initialize_database Sample.env empty_store = Some Sample.started.
Proof. by vm_compute. Qed.

Lemma sample_both_registered_reachable :
  reachable (H := Sample.libraries) Sample.both_registered.
Proof.
  exists Sample.env, Sample.started. split; [exact sample_started|].
  eapply rtc_l; [apply (step_request Sample.started None
                          (ReqRegister POST Sample.alice) Sample.env)|].
  apply rtc_once.
  apply (step_request Sample.alice_registered None
           (ReqRegister POST Sample.pat) Sample.env).
Qed.

Lemma sample_two_posts_reachable :
  reachable (H := Sample.libraries) Sample.two_posts.
Proof.
  destruct sample_both_registered_reachable as (env & st0 & Hinit & Hsteps).
  exists env, st0. split; [done|].
  eapply rtc_trans; [exact Hsteps|].
  eapply rtc_l; [apply (step_request Sample.both_registered (Some 1)
                          (ReqCreateBlog POST Sample.flu_season) Sample.env)|].
  apply rtc_once.
  apply (step_request Sample.one_post (Some 1)
           (ReqCreateBlog POST Sample.heart_notes) Sample.env).
Qed.

(** Alice has the password right and claims the patient role: the result
    is that of a login with a wrong password. *)
Lemma login_invalid_credentials_witness :
  LoginForm_errors (LoginForm.mk "alice" "Secr3t!" "patient") = [] ∧
  serve (H := Sample.libraries) Sample.both_registered None
    (ReqLogin POST (LoginForm.mk "alice" "Secr3t!" "patient") None) Sample.env
  = invalid_credentials Sample.both_registered None ∧
  serve (H := Sample.libraries) Sample.both_registered None
    (ReqLogin POST (LoginForm.mk "alice" "Secret?" "doctor") None) Sample.env
  = serve (H := Sample.libraries) Sample.both_registered None
      (ReqLogin POST (LoginForm.mk "alice" "Secr3t!" "patient") None) Sample.env.
Proof.
  split; [reflexivity|].
  destruct (login_invalid_credentials (H := Sample.libraries)
              Sample.both_registered None
              (LoginForm.mk "alice" "Secr3t!" "patient") None Sample.env eq_refl)
    as [_ Hrole].
  destruct (Hrole Sample.alice_row) as [Hfail Hsame]; [by vm_compute..|].
  split; [exact Hfail|]. apply Hsame; by vm_compute.
Defined.

(** Alice registers a second time. *)
Lemma register_duplicate_identity_witness :
  reachable (H := Sample.libraries) Sample.both_registered ∧
  is_Some (user_by_username Sample.both_registered
             (RegistrationForm.username Sample.alice)) ∧
  store (serve (H := Sample.libraries) Sample.both_registered None
           (ReqRegister POST Sample.alice) Sample.env) = Sample.both_registered ∧
  (FieldError "username"
     (Message "That username is taken. Please choose a different one."),
   "danger")
  ∈ flashes (serve (H := Sample.libraries) Sample.both_registered None
               (ReqRegister POST Sample.alice) Sample.env).
Proof.
  assert (is_Some (user_by_username Sample.both_registered
                     (RegistrationForm.username Sample.alice))) as Htaken.
  { exists Sample.alice_row. by vm_compute. }
  destruct (register_duplicate_identity (H := Sample.libraries)
              Sample.both_registered None Sample.alice Sample.env
              sample_both_registered_reachable (or_introl Htaken))
    as (Hstore & _ & _ & Hname & _).
  split_and!; [exact sample_both_registered_reachable|done|done|by apply Hname].
Defined.

(** Pat, a patient, asks for [/blog/create]. *)
Lemma create_blog_forbidden_or_unauthenticated_witness :
  load_user Sample.both_registered 2 = Some Sample.pat_row ∧
  User.role Sample.pat_row = "patient" ∧
  response (serve (H := Sample.libraries) Sample.both_registered (Some 2)
              (ReqCreateBlog POST Sample.flu_season) Sample.env) = Abort 403 ∧
  response (serve (H := Sample.libraries) Sample.both_registered None
              (ReqCreateBlog POST Sample.flu_season) Sample.env)
  = Redirect "/login" (Some "/blog/create").
Proof.
  destruct (create_blog_forbidden_or_unauthenticated (H := Sample.libraries)
              Sample.both_registered 2 Sample.pat_row POST Sample.flu_season
              Sample.env eq_refl eq_refl) as (Hpat & Hanon & _).
  split_and!; [reflexivity|reflexivity|by rewrite Hpat|by rewrite Hanon].
Defined.

(** The draft "Heart Notes" is in Alice's list and in no category's. *)
Lemma draft_visibility_witness :
  reachable (H := Sample.libraries) Sample.two_posts ∧
  Sample.heart_row ∈ posts Sample.two_posts ∧
  Sample.heart_row ∈ listByAuthor Sample.two_posts 1 ∧
  (∀ c ps, (c, ps) ∈ listPublishedByCategory Sample.two_posts →
           Sample.heart_row ∉ ps).
Proof.
  assert (Sample.heart_row ∈ posts Sample.two_posts) as Hin.
  { apply (list_elem_of_lookup_2 _ 1). by vm_compute. }
  destruct (draft_visibility (H := Sample.libraries) Sample.two_posts
              Sample.heart_row sample_two_posts_reachable Hin)
    as (Hmine & _ & _ & Hdraft & _).
  split_and!; [exact sample_two_posts_reachable|done|exact Hmine|].
  by apply Hdraft.
Defined.

(** "Flu Season" was sent without a value for the draft box. *)
Lemma create_blog_is_draft_witness :
  response (serve (H := Sample.libraries) Sample.both_registered (Some 1)
              (ReqCreateBlog POST Sample.flu_season) Sample.env)
  = Redirect (url_for "my_posts") None ∧
  ∃ p, posts Sample.one_post = (posts Sample.both_registered ++ [p])%list ∧
       BlogPost.is_draft p = false.
Proof.
  assert (response (serve (H := Sample.libraries) Sample.both_registered (Some 1)
                      (ReqCreateBlog POST Sample.flu_season) Sample.env)
          = Redirect (url_for "my_posts") None) as Hok by by vm_compute.
  destruct (create_blog_is_draft (H := Sample.libraries) Sample.both_registered
              (Some 1) POST Sample.flu_season Sample.env Hok)
    as (p & Hposts & _ & Hnone & _).
  split; [exact Hok|]. exists p. split; [exact Hposts|by apply Hnone].
Defined.

(** C5 as stated fails: the request carries no draft choice and the post is
    created published. *)
Lemma post_without_draft_choice_is_published :
  BlogPostForm.is_draft Sample.flu_season = None ∧
  response (serve (H := Sample.libraries) Sample.both_registered (Some 1)
              (ReqCreateBlog POST Sample.flu_season) Sample.env)
  = Redirect "/blog/my_posts" None ∧
  posts (store (serve (H := Sample.libraries) Sample.both_registered (Some 1)
                  (ReqCreateBlog POST Sample.flu_season) Sample.env))
  = [Sample.flu_row] ∧
  BlogPost.is_draft Sample.flu_row = false.
Proof. by vm_compute. Qed.

(** The database is down while Alice registers and while she posts. *)
Lemma failed_commit_keeps_upload_witness :
  commit_ok Sample.db_down = false ∧
  users (store (serve (H := Sample.libraries) Sample.started None
                  (ReqRegister POST Sample.alice) Sample.db_down))
  = users Sample.started ∧
  files (store (serve (H := Sample.libraries) Sample.started None
                  (ReqRegister POST Sample.alice) Sample.db_down))
  = <[Sample.photo_path := "picture of Alice"]> (files Sample.started) ∧
  posts (store (serve (H := Sample.libraries) Sample.both_registered (Some 1)
                  (ReqCreateBlog POST Sample.flu_season) Sample.db_down))
  = posts Sample.both_registered.
Proof.
  destruct (failed_commit_keeps_upload (H := Sample.libraries) Sample.started
              None Sample.db_down eq_refl) as [Hregister _].
  destruct (Hregister Sample.alice eq_refl) as (Husers & _ & _ & _ & _ & Hfile).
  destruct (failed_commit_keeps_upload (H := Sample.libraries)
              Sample.both_registered (Some 1) Sample.db_down eq_refl)
    as [_ Hcreate].
  destruct (Hcreate POST Sample.flu_season Sample.alice_row)
    as (_ & _ & Hposts & _); [by vm_compute..|].
  split_and!; [reflexivity|exact Husers| |exact Hposts].
  apply (Hfile (mkFile "photo.png" "picture of Alice")); reflexivity.
Defined.

(** C6 as stated fails: the commit is refused, no row is added, and the
    file saved before it is in the upload folder afterwards. *)
Lemma failed_commit_leaves_file :
  files Sample.started !! Sample.photo_path = None ∧
  users (store (serve (H := Sample.libraries) Sample.started None
                  (ReqRegister POST Sample.alice) Sample.db_down)) = [] ∧
  files (store (serve (H := Sample.libraries) Sample.started None
                  (ReqRegister POST Sample.alice) Sample.db_down))
    !! Sample.photo_path = Some "picture of Alice" ∧
  files Sample.both_registered !! Sample.flu_path = None ∧
  posts (store (serve (H := Sample.libraries) Sample.both_registered (Some 1)
                  (ReqCreateBlog POST Sample.flu_season) Sample.db_down)) = [] ∧
  files (store (serve (H := Sample.libraries) Sample.both_registered (Some 1)
                  (ReqCreateBlog POST Sample.flu_season) Sample.db_down))
    !! Sample.flu_path = Some "picture of a syringe".
Proof. by vm_compute. Qed.

(** Pat registers with a picture named like Alice's. *)
Lemma upload_replaces_file_witness :
  save_ok Sample.env = true ∧
  files Sample.alice_registered !! Sample.photo_path = Some "picture of Alice" ∧
  files (store (serve (H := Sample.libraries) Sample.alice_registered None
                  (ReqRegister POST Sample.pat) Sample.env))
    !! profile_path (H := Sample.libraries) (mkFile "photo.png" "picture of Pat")
  = Some "picture of Pat".
Proof.
  destruct (upload_replaces_file (H := Sample.libraries) Sample.alice_registered
              None Sample.env eq_refl) as [Hregister _].
  destruct (Hregister Sample.pat (mkFile "photo.png" "picture of Pat")
              eq_refl eq_refl) as [Hnew _].
  split_and!; [reflexivity|by vm_compute|exact Hnew].
Defined.

(** C7 as stated fails: Pat's picture has the name of Alice's, and after
    Pat's registration the file both rows refer to holds Pat's picture. *)
Lemma second_upload_replaces_first :
  files Sample.alice_registered !! Sample.photo_path = Some "picture of Alice" ∧
  files Sample.both_registered !! Sample.photo_path = Some "picture of Pat" ∧
  User.profile_picture <$> users Sample.both_registered
  = [Some "profile_pics/photo.png"; Some "profile_pics/photo.png"].
Proof. by vm_compute. Qed.

(** The categories of the sample after two posts: only "Immunization" has a
    published post. *)
Lemma listPublishedByCategory_every_category_witness :
  reachable (H := Sample.libraries) Sample.two_posts ∧
  (listPublishedByCategory Sample.two_posts).*1 = categories Sample.two_posts ∧
  listPublishedByCategory Sample.two_posts
  = [(Category.mk 1 "Mental Health", []); (Category.mk 2 "Heart Disease", []);
     (Category.mk 3 "Covid19", []);
     (Category.mk 4 "Immunization", [Sample.flu_row])].
Proof.
  destruct (listPublishedByCategory_every_category (H := Sample.libraries)
              Sample.two_posts sample_two_posts_reachable) as (Hkeys & _).
  split_and!; [exact sample_two_posts_reachable|exact Hkeys|by vm_compute].
Defined.

(** Both sample posts are Alice's, and Alice is a doctor. *)
Lemma posts_belong_to_doctors_witness :
  reachable (H := Sample.libraries) Sample.two_posts ∧
  posts_by_doctors Sample.two_posts.
Proof.
  destruct (posts_belong_to_doctors (H := Sample.libraries) Sample.two_posts
              sample_two_posts_reachable) as [Hinv _].
  split; [exact sample_two_posts_reachable|exact Hinv].
Defined.

(** Alice registers, Pat registers, Alice logs in. *)
Lemma register_then_login_witness :
  response (serve (H := Sample.libraries) Sample.started None
              (ReqRegister POST Sample.alice) Sample.env)
  = Redirect (url_for "login") None ∧
  check_password_hash (Libraries := Sample.libraries)
    (generate_password_hash (Libraries := Sample.libraries) "NaCl" "Secr3t!")
    "Secr3t!" = true ∧
  generate_password_hash (Libraries := Sample.libraries) "NaCl" "Secr3t!"
  ≠ "Secr3t!" ∧
  serve (H := Sample.libraries) Sample.both_registered None
    (ReqLogin POST (LoginForm.mk "alice" "Secr3t!" "doctor") None) Sample.env
  = mkResult Sample.both_registered (Some 1) []
      (Redirect "/doctors_dashboard" None).
Proof.
  assert (generate_password_hash (Libraries := Sample.libraries) "NaCl" "Secr3t!"
          ≠ "Secr3t!") as Hne by by vm_compute.
  destruct (register_then_login (H := Sample.libraries) Sample.started None
              Sample.alice Sample.env eq_refl eq_refl Hne)
    as (user & Hfound & _ & _ & _ & _ & Hlogin).
  assert (user = Sample.alice_row) as ->
    by (vm_compute in Hfound; by injection Hfound as <-).
  split_and!; [reflexivity|reflexivity|exact Hne|].
  apply (Hlogin Sample.both_registered None None Sample.env).
  apply rtc_once.
  apply (step_request Sample.alice_registered None
           (ReqRegister POST Sample.pat) Sample.env).
Defined.

(** ** The further properties, on the sample deployment *)

(** A cookie with a user id nobody has. *)
Lemma gated_route_needs_login_witness :
  gate ReqMyPosts = Some ("/blog/my_posts", "doctor") ∧
  Some 99 ≫= load_user Sample.both_registered = None ∧
  serve (H := Sample.libraries) Sample.both_registered (Some 99) ReqMyPosts
    Sample.env
  = mkResult Sample.both_registered (Some 99)
      [(Text "Please log in to access this page.", "info")]
      (Redirect "/login" (Some "/blog/my_posts")).
Proof.
  split_and!; [reflexivity|reflexivity|].
  apply (gated_route_needs_login (H := Sample.libraries) Sample.both_registered
           (Some 99) ReqMyPosts Sample.env "/blog/my_posts" "doctor");
    reflexivity.
Defined.

(** Pat, a patient, asks for the doctors' list of posts. *)
Lemma gated_route_forbidden_iff_witness :
  gate ReqMyPosts = Some ("/blog/my_posts", "doctor") ∧
  Some 2 ≫= load_user Sample.both_registered = Some Sample.pat_row ∧
  serve (H := Sample.libraries) Sample.both_registered (Some 2) ReqMyPosts
    Sample.env
  = mkResult Sample.both_registered (Some 2) [] (Abort 403).
Proof.
  destruct (gated_route_forbidden_iff (H := Sample.libraries)
              Sample.both_registered (Some 2) ReqMyPosts Sample.env
              "/blog/my_posts" "doctor" Sample.pat_row eq_refl eq_refl)
    as (_ & Hwrong & _).
  split_and!; [reflexivity|reflexivity|]. apply Hwrong. by vm_compute.
Defined.

Lemma sample_alice_stored : Sample.alice_row ∈ users Sample.two_posts.
Proof. apply (list_elem_of_lookup_2 _ 0%nat). by vm_compute. Qed.


(** Alice's row is found by key, by name and by address. *)
Lemma stored_user_found_by_key_witness :
  reachable (H := Sample.libraries) Sample.two_posts ∧
  Sample.alice_row ∈ users Sample.two_posts ∧
  load_user Sample.two_posts 1 = Some Sample.alice_row ∧
  user_by_username Sample.two_posts "alice" = Some Sample.alice_row ∧
  user_by_email Sample.two_posts "alice@example.org" = Some Sample.alice_row.
Proof.
  destruct (stored_user_found_by_key (H := Sample.libraries) Sample.two_posts
              Sample.alice_row sample_two_posts_reachable sample_alice_stored)
    as (Hkey & Hname & Hmail & _).
  split_and!; [exact sample_two_posts_reachable|exact sample_alice_stored|
               exact Hkey|exact Hname|exact Hmail].
Defined.


(** The category table of the sample after two posts. *)
Lemma categories_are_the_defaults_witness :
  reachable (H := Sample.libraries) Sample.two_posts ∧
  categories Sample.two_posts = seed_table.
Proof.
  destruct (categories_are_the_defaults (H := Sample.libraries) Sample.two_posts
              sample_two_posts_reachable) as (Htable & _).
  split; [exact sample_two_posts_reachable|exact Htable].
Defined.



(** The patient page of the sample after two posts. *)
Lemma published_posts_listed_once_witness :
  reachable (H := Sample.libraries) Sample.two_posts ∧
  NoDup (listPublishedByCategory Sample.two_posts ≫= snd) ∧
  listPublishedByCategory Sample.two_posts ≫= snd = [Sample.flu_row].
Proof.
  destruct (published_posts_listed_once (H := Sample.libraries) Sample.two_posts
              sample_two_posts_reachable) as (Honce & _).
  split_and!; [exact sample_two_posts_reachable|exact Honce|by vm_compute].
Defined.

(** Alice logs in and asks for her dashboard. *)
Lemma login_opens_own_dashboard_witness :
  reachable (H := Sample.libraries) Sample.both_registered ∧
  LoginForm_errors Sample.alice_login = [] ∧
  user_by_username Sample.both_registered "alice" = Some Sample.alice_row ∧
  session (serve (H := Sample.libraries) Sample.both_registered None
             (ReqLogin POST Sample.alice_login None) Sample.env) = Some 1 ∧
  response (serve (H := Sample.libraries) Sample.both_registered (Some 1)
              ReqDoctorsDashboard Sample.env)
  = Render "doctors_dashboard.html" (UserContext Sample.alice_row).
Proof.
  destruct (login_opens_own_dashboard (H := Sample.libraries)
              Sample.both_registered None Sample.alice_login None Sample.env
              Sample.alice_row sample_both_registered_reachable
              eq_refl eq_refl eq_refl eq_refl)
    as (_ & Hsession & _ & _ & _ & Hlater).
  destruct (Hlater Sample.both_registered Sample.env (rtc_refl _ _))
    as [Hdashboard _].
  split_and!; [exact sample_both_registered_reachable|reflexivity|reflexivity|
               exact Hsession|exact Hdashboard].
Defined.


(** Carol uploads a GIF. *)
Lemma register_checks_picture_extension_witness :
  file_data (RegistrationForm.profile_picture Sample.carol_gif)
  = Some (mkFile "Carol.GIF" "moving picture of Carol") ∧
  endswith (lower "Carol.GIF") ".jpg" = false ∧
  endswith (lower "Carol.GIF") ".png" = false ∧
  store (serve (H := Sample.libraries) Sample.both_registered None
           (ReqRegister POST Sample.carol_gif) Sample.env)
  = Sample.both_registered.
Proof.
  destruct (register_checks_picture_extension (H := Sample.libraries)
              Sample.both_registered None Sample.carol_gif Sample.env
              (mkFile "Carol.GIF" "moving picture of Carol")
              eq_refl eq_refl eq_refl) as (Hstore & _).
  split_and!; [reflexivity|reflexivity|reflexivity|exact Hstore].
Defined.

(** Alice posts with a GIF. *)
Lemma create_blog_checks_image_extension_witness :
  file_data (BlogPostForm.image Sample.flu_gif)
  = Some (mkFile "flu.gif" "moving syringe") ∧
  endswith (lower "flu.gif") ".jpg" = false ∧
  endswith (lower "flu.gif") ".png" = false ∧
  endswith (lower "flu.gif") ".jpeg" = false ∧
  serve (H := Sample.libraries) Sample.both_registered (Some 1)
    (ReqCreateBlog POST Sample.flu_gif) Sample.env
  = mkResult Sample.both_registered (Some 1) []
      (Render "create_blog.html" (Title "Create Post")).
Proof.
  destruct (create_blog_checks_image_extension (H := Sample.libraries)
              Sample.both_registered (Some 1) Sample.flu_gif Sample.env
              (mkFile "flu.gif" "moving syringe")
              eq_refl eq_refl eq_refl eq_refl) as (_ & _ & Hdoctor).
  split_and!; [reflexivity|reflexivity|reflexivity|reflexivity|].
  apply (Hdoctor Sample.alice_row); reflexivity.
Defined.

(** Alice's registration, with her picture. *)
Lemma registered_picture_stored_witness :
  response (serve (H := Sample.libraries) Sample.started None
              (ReqRegister POST Sample.alice) Sample.env)
  = Redirect (url_for "login") None ∧
  ∃ user,
    users Sample.alice_registered = (users Sample.started ++ [user])%list ∧
    User.profile_picture user = Some "profile_pics/photo.png" ∧
    files Sample.alice_registered !! Sample.photo_path = Some "picture of Alice".
Proof.
  destruct (registered_picture_stored (H := Sample.libraries) Sample.started
              None Sample.alice Sample.env eq_refl)
    as (user & Husers & _ & Hpicture & Hfile & _).
  split; [reflexivity|]. exists user.
  split_and!; [exact Husers|exact Hpicture|exact Hfile].
Defined.

(** Alice's post "Flu Season", with its image. *)
Lemma created_post_stored_witness :
  response (serve (H := Sample.libraries) Sample.both_registered (Some 1)
              (ReqCreateBlog POST Sample.flu_season) Sample.env)
  = Redirect (url_for "my_posts") None ∧
  ∃ p,
    posts Sample.one_post = (posts Sample.both_registered ++ [p])%list ∧
    BlogPost.doctor_id p = 1 ∧
    BlogPost.image p = Some "blog_images/flu.jpg" ∧
    files Sample.one_post !! Sample.flu_path = Some "picture of a syringe".
Proof.
  destruct (created_post_stored (H := Sample.libraries) Sample.both_registered
              (Some 1) POST Sample.flu_season Sample.env eq_refl)
    as (doctor & p & Hdoctor & _ & Hposts & _ & _ & _ & Hid & _ & _ & _ & _
        & Himage & Hfile).
  assert (doctor = Sample.alice_row) as ->
    by (vm_compute in Hdoctor; by injection Hdoctor as <-).
  split; [reflexivity|]. exists p.
  split_and!; [exact Hposts|exact Hid|exact Himage|exact Hfile].
Defined.


(** "Flu Season" joins Alice's list. *)
Lemma created_post_listed_witness :
  response (serve (H := Sample.libraries) Sample.both_registered (Some 1)
              (ReqCreateBlog POST Sample.flu_season) Sample.env)
  = Redirect (url_for "my_posts") None ∧
  ∃ p,
    listByAuthor Sample.one_post 1
    = (listByAuthor Sample.both_registered 1 ++ [p])%list ∧
    listByAuthor Sample.one_post 2 = listByAuthor Sample.both_registered 2.
Proof.
  destruct (created_post_listed (H := Sample.libraries) Sample.both_registered
              (Some 1) POST Sample.flu_season Sample.env eq_refl)
    as (doctor & p & Hdoctor & _ & Hmine & Hothers & _).
  assert (doctor = Sample.alice_row) as ->
    by (vm_compute in Hdoctor; by injection Hdoctor as <-).
  split; [reflexivity|]. exists p. split; [exact Hmine|].
  apply (Hothers 2). by vm_compute.
Defined.
